(** * IPSAS financial software: ledger models

    A shallow embedding of the Django models of
    [backend/journal_entries/models.py], [backend/chart_of_accounts/models.py],
    [backend/financial_statements/models.py] and [backend/accounts/models.py],
    and the properties of validation, approval, posting and reversal.

    Conventions.
    - A [DecimalField(max_digits=15, decimal_places=2)] holds a number of
      cents, an integer of [Z]; Python's [Decimal] addition, subtraction,
      negation and comparison are exact on such values.  The digit bound of
      the column is enforced by the database adapter, outside the models;
      where a statement depends on it, it is a hypothesis ([balances_fit]).
    - A write that a method issues is taken to reach the table: what the
      database may refuse (a duplicate [entry_number], a missing user row,
      a lost connection) is outside the models; where a statement depends
      on the unique entry number, it is a hypothesis ([number_is_free]).
    - A [DateField] / [DateTimeField] is a [Z] (an ordinal); the value of
      [timezone.now()] is an argument of the method that reads it.
    - A [ForeignKey] is the primary key of the row it refers to.
    - A row of a table is a record; a table keyed by primary key is a [gmap].
    - The columns [created_at] / [updated_at] ([auto_now]) and the free-text
      columns that no method reads are left out of the records. *)

From stdpp Require Import gmap strings pretty list fin_maps sorting.
From Stdlib Require Import ZArith Lia.

Local Open Scope string_scope.
Local Open Scope Z_scope.

Abbreviation Decimal := Z (only parsing).

(** ** Exceptions and outcomes *)

(** The exceptions the models raise: [django.core.exceptions.ValidationError]
    with its message, or with the list of the messages it collected, and the
    [DoesNotExist] of a foreign key whose row is gone. *)
Inductive Exception : Type :=
| ValidationError (message : string)
| ValidationErrors (messages : list string)
| DoesNotExist.

Inductive Outcome (A : Type) : Type :=
| Return (a : A)
| Raise (e : Exception).
Arguments Return {A} a.
Arguments Raise {A} e.

Definition succeeded {A} (o : Outcome A) : bool :=
  match o with Return _ => true | Raise _ => false end.

(** [except ValidationError as e: errors.extend(e.messages)]: the messages
    of the validation error a check raised, none when it returned. *)
Definition error_list (o : Outcome unit) : list string :=
  match o with
  | Raise (ValidationError m) => [m]
  | Raise (ValidationErrors ms) => ms
  | _ => []
  end.

(** [if errors: raise ValidationError(errors)] *)
Definition raise_if_any (errors : list string) : Outcome unit :=
  match errors with
  | [] => Return tt
  | _ => Raise (ValidationErrors errors)
  end.

(** A method that reads and writes a store [St] and may raise: the store
    it leaves behind is returned in both cases, as Python leaves the objects
    a method has assigned to before it raised. *)
Definition M (St A : Type) : Type := St -> Outcome A * St.

#[global] Instance M_ret {St} : MRet (M St) := fun A a s => (Return a, s).
#[global] Instance M_bind {St} : MBind (M St) := fun A B k m s =>
  match m s with
  | (Return a, s') => k a s'
  | (Raise e, s') => (Raise e, s')
  end.

Definition raise {St A} (e : Exception) : M St A := fun s => (Raise e, s).
Definition get {St} : M St St := fun s => (Return s, s).
Definition modify {St} (f : St -> St) : M St unit := fun s => (Return tt, f s).

(** [for x in xs: body(x)] *)
Fixpoint for_each {St A} (xs : list A) (body : A -> M St unit) : M St unit :=
  match xs with
  | [] => mret tt
  | x :: xs' => body x ;; for_each xs' body
  end.

(** ** accounts.User *)

Inductive Role : Type := admin | accountant | auditor | viewer | manager.

#[global] Instance Role_eq_dec : EqDecision Role.
Proof. solve_decision. Defined.

Module User.
Record t : Type := mk {
  pk : Z;
  role : Role
}.

Definition has_ipsas_permission (self : t) (permission : string) : bool :=
  if bool_decide (role self = admin) then true
  else if bool_decide (role self = accountant) then
    bool_decide (permission ∈ ["create"; "edit"; "view"; "delete"])
  else if bool_decide (role self = auditor) then
    bool_decide (permission ∈ ["view"; "audit"])
  else if bool_decide (role self = manager) then
    bool_decide (permission ∈ ["create"; "edit"; "view"; "approve"])
  else (* viewer *)
    bool_decide (permission = "view").
End User.

(** ** chart_of_accounts *)

Inductive NormalBalance : Type := debit | credit.

#[global] Instance NormalBalance_eq_dec : EqDecision NormalBalance.
Proof. solve_decision. Defined.

(** The value of the column, as the choices spell it. *)
Definition NormalBalance_str (b : NormalBalance) : string :=
  match b with debit => "debit" | credit => "credit" end.

Module AccountCategory.
(** [CATEGORY_CHOICES] *)
Inductive CategoryType : Type := assets | liabilities | equity | revenue | expenses.

#[global] Instance CategoryType_eq_dec : EqDecision CategoryType.
Proof. solve_decision. Defined.

Record t : Type := mk {
  name : string;
  code : string;
  category_type : CategoryType
}.
End AccountCategory.

Module AccountType.
Record t : Type := mk {
  normal_balance : NormalBalance
}.
End AccountType.

Module ChartOfAccount.
Record t : Type := mk {
  account_number : string;
  account_name : string;
  normal_balance : NormalBalance;
  opening_balance : Decimal;
  current_balance : Decimal;
  is_active : bool
}.

Definition set_current_balance (b : Decimal) (self : t) : t :=
  {| account_number := account_number self;
     account_name := account_name self;
     normal_balance := normal_balance self;
     opening_balance := opening_balance self;
     current_balance := b;
     is_active := is_active self |}.

(** [clean]; [type_] is the row [self.type] refers to. *)
Definition clean (self : t) (type_ : AccountType.t) : Outcome unit :=
  if negb (bool_decide (normal_balance self = AccountType.normal_balance type_)) then
    Raise (ValidationError
      ("Account normal balance must match account type normal balance: "
       +:+ NormalBalance_str (AccountType.normal_balance type_)))
  else if (opening_balance self <? 0)
          && bool_decide (normal_balance self = credit) then
    Raise (ValidationError "Credit accounts cannot have negative opening balances")
  else if (opening_balance self >? 0)
          && bool_decide (normal_balance self = debit) then
    Raise (ValidationError "Debit accounts cannot have positive opening balances")
  else Return tt.

Definition get_balance_display (self : t) : Decimal :=
  if bool_decide (normal_balance self = debit) then current_balance self
  else - current_balance self.

(** [is_balance_sheet_account], [is_income_statement_account]; [category]
    is the row [self.category] refers to. *)
Definition is_balance_sheet_account (self : t) (category : AccountCategory.t) : bool :=
  bool_decide (AccountCategory.category_type category
               ∈ [AccountCategory.assets; AccountCategory.liabilities;
                  AccountCategory.equity]).

Definition is_income_statement_account (self : t) (category : AccountCategory.t) : bool :=
  bool_decide (AccountCategory.category_type category
               ∈ [AccountCategory.revenue; AccountCategory.expenses]).
End ChartOfAccount.

(** ** financial_statements.FinancialPeriod *)

Inductive PeriodStatus : Type := period_open | period_closed | period_locked.

#[global] Instance PeriodStatus_eq_dec : EqDecision PeriodStatus.
Proof. solve_decision. Defined.

Module FinancialPeriod.
Record t : Type := mk {
  fiscal_year : Z;
  period_number : Z;
  start_date : Z;
  end_date : Z;
  status : PeriodStatus
}.

Definition clean (self : t) : Outcome unit :=
  if start_date self >=? end_date self then
    Raise (ValidationError "Start date must be before end date")
  else Return tt.
End FinancialPeriod.

(** ** journal_entries.JournalEntryLine *)

Module JournalEntryLine.
Record t : Type := mk {
  journal_entry : Z;      (* ForeignKey(JournalEntry) *)
  account : Z;            (* ForeignKey(ChartOfAccount) *)
  line_number : Z;
  debit_amount : Decimal;
  credit_amount : Decimal
}.

Definition clean (self : t) : Outcome unit :=
  if (debit_amount self <? 0) || (credit_amount self <? 0) then
    Raise (ValidationError "Amounts cannot be negative")
  else if (debit_amount self >? 0) && (credit_amount self >? 0) then
    Raise (ValidationError "Line cannot have both debit and credit amounts")
  else if (debit_amount self =? 0) && (credit_amount self =? 0) then
    Raise (ValidationError "Line must have either debit or credit amount")
  else Return tt.

Definition get_amount (self : t) : Decimal :=
  if debit_amount self >? 0 then debit_amount self
  else - credit_amount self.
End JournalEntryLine.

(** ** journal_entries.TrialBalance, TrialBalanceLine *)

Module TrialBalance.
Record t : Type := mk {
  fiscal_year : Z;
  fiscal_period : Z;
  total_debits : Decimal;
  total_credits : Decimal;
  is_balanced : bool;
  is_closed : bool
}.

Definition get_balance (self : t) : Decimal :=
  total_debits self - total_credits self.
End TrialBalance.

Module TrialBalanceLine.
Record t : Type := mk {
  trial_balance : Z;      (* ForeignKey(TrialBalance) *)
  account : Z;            (* ForeignKey(ChartOfAccount) *)
  opening_debit : Decimal;
  opening_credit : Decimal;
  period_debit : Decimal;
  period_credit : Decimal;
  closing_debit : Decimal;
  closing_credit : Decimal
}.

Definition get_opening_balance (self : t) : Decimal :=
  if opening_debit self >? 0 then opening_debit self
  else - opening_credit self.

Definition get_closing_balance (self : t) : Decimal :=
  if closing_debit self >? 0 then closing_debit self
  else - closing_credit self.
End TrialBalanceLine.

(** ** django.core.validators *)

(** [MinValueValidator(limit_value)(value)] raises when
    [value < limit_value]. *)
Definition MinValueValidator (limit_value value : Z) : Outcome unit :=
  if value <? limit_value then
    Raise (ValidationError
       ("Ensure this value is greater than or equal to " +:+ pretty limit_value +:+ "."))
  else Return tt.

(** [Field.run_validators]: every validator runs, the errors they raise
    are collected and raised together. *)
Definition run_validators (validators : list (Z -> Outcome unit)) (value : Z)
  : Outcome unit :=
  raise_if_any (flat_map (fun v => error_list (v value)) validators).

(** ** journal_entries.JournalEntry *)

Inductive EntryType : Type :=
| regular | adjusting | closing | reversing | opening | import_.

Inductive Status : Type :=
| draft | pending | approved | posted | rejected | cancelled.

#[global] Instance EntryType_eq_dec : EqDecision EntryType.
Proof. solve_decision. Defined.

#[global] Instance Status_eq_dec : EqDecision Status.
Proof. solve_decision. Defined.

Module JournalEntry.
Record t : Type := mk {
  pk : Z;
  entry_number : string;
  entry_date : Z;
  reference_number : string;
  entry_type : EntryType;
  status : Status;
  fiscal_year : Z;
  fiscal_period : Z;
  total_debits : Decimal;
  total_credits : Decimal;
  created_by : Z;               (* ForeignKey(User) *)
  approved_by : option Z;       (* ForeignKey(User, null=True) *)
  posted_by : option Z;         (* ForeignKey(User, null=True) *)
  approved_at : option Z;
  posted_at : option Z
}.

(** Assignments [self.<field> = v]. *)
Definition set_entry_number (v : string) (e : t) : t :=
  mk (pk e) v (entry_date e) (reference_number e) (entry_type e) (status e)
     (fiscal_year e) (fiscal_period e) (total_debits e) (total_credits e)
     (created_by e) (approved_by e) (posted_by e) (approved_at e) (posted_at e).
Definition set_status (v : Status) (e : t) : t :=
  mk (pk e) (entry_number e) (entry_date e) (reference_number e) (entry_type e) v
     (fiscal_year e) (fiscal_period e) (total_debits e) (total_credits e)
     (created_by e) (approved_by e) (posted_by e) (approved_at e) (posted_at e).
Definition set_approved_by (v : option Z) (e : t) : t :=
  mk (pk e) (entry_number e) (entry_date e) (reference_number e) (entry_type e)
     (status e) (fiscal_year e) (fiscal_period e) (total_debits e) (total_credits e)
     (created_by e) v (posted_by e) (approved_at e) (posted_at e).
Definition set_posted_by (v : option Z) (e : t) : t :=
  mk (pk e) (entry_number e) (entry_date e) (reference_number e) (entry_type e)
     (status e) (fiscal_year e) (fiscal_period e) (total_debits e) (total_credits e)
     (created_by e) (approved_by e) v (approved_at e) (posted_at e).
Definition set_approved_at (v : option Z) (e : t) : t :=
  mk (pk e) (entry_number e) (entry_date e) (reference_number e) (entry_type e)
     (status e) (fiscal_year e) (fiscal_period e) (total_debits e) (total_credits e)
     (created_by e) (approved_by e) (posted_by e) v (posted_at e).
Definition set_posted_at (v : option Z) (e : t) : t :=
  mk (pk e) (entry_number e) (entry_date e) (reference_number e) (entry_type e)
     (status e) (fiscal_year e) (fiscal_period e) (total_debits e) (total_credits e)
     (created_by e) (approved_by e) (posted_by e) (approved_at e) v.

(** The validators declared on the field [fiscal_period]:
    [validators=[MinValueValidator(1), MinValueValidator(12)]]. *)
Definition fiscal_period_validators : list (Z -> Outcome unit) :=
  [MinValueValidator 1; MinValueValidator 12].

Definition clean (self : t) : Outcome unit :=
  if negb (total_debits self =? total_credits self) then
    Raise (ValidationError "Total debits must equal total credits")
  else if (fiscal_period self <? 1) || (fiscal_period self >? 12) then
    Raise (ValidationError "Fiscal period must be between 1 and 12")
  else Return tt.

(** [Model.clean_fields], for the one column above that declares
    validators. *)
Definition clean_fields (self : t) : Outcome unit :=
  run_validators fiscal_period_validators (fiscal_period self).

(** [Model.full_clean]: [clean_fields], then [clean]; the errors of both
    are collected, and raised together when there is any. *)
Definition full_clean (self : t) : Outcome unit :=
  raise_if_any (error_list (clean_fields self) ++ error_list (clean self)).

Definition get_balance (self : t) : Decimal :=
  total_debits self - total_credits self.

Definition can_approve (self : t) (user : User.t) : bool :=
  if negb (bool_decide (status self = pending)) then false
  else if bool_decide (User.role user ∈ [admin; manager]) then true
  else false.

Definition can_post (self : t) (user : User.t) : bool :=
  if negb (bool_decide (status self = approved)) then false
  else if bool_decide (User.role user ∈ [admin; accountant]) then true
  else false.

(** The tables the methods read and write. *)
Record Database : Type := mkDatabase {
  chartofaccount : gmap Z ChartOfAccount.t;
  journalentry : gmap Z t;
  journalentryline : list JournalEntryLine.t;
  financialperiod : list FinancialPeriod.t
}.

(** What a method call works on: the database, and the Python object
    [self] the method is called on. *)
Record Store : Type := mkStore {
  db : Database;
  self : t
}.

Definition assign (f : t -> t) : M Store unit :=
  modify (fun s => mkStore (db s) (f (self s))).

Definition write_chartofaccount (k : Z) (a : ChartOfAccount.t) : M Store unit :=
  modify (fun s =>
    mkStore (mkDatabase (<[k := a]> (chartofaccount (db s))) (journalentry (db s))
                        (journalentryline (db s)) (financialperiod (db s)))
            (self s)).

Definition write_journalentry (k : Z) (e : t) : M Store unit :=
  modify (fun s =>
    mkStore (mkDatabase (chartofaccount (db s)) (<[k := e]> (journalentry (db s)))
                        (journalentryline (db s)) (financialperiod (db s)))
            (self s)).

(** [with transaction.atomic(): body]: when the body raises, the database
    is as it was on entry; the Python objects keep what was assigned. *)
Definition atomic {A} (body : M Store A) : M Store A := fun s =>
  match body s with
  | (Raise e, s') => (Raise e, mkStore (db s) (self s'))
  | r => r
  end.

Definition line_number_le (l1 l2 : JournalEntryLine.t) : Prop :=
  JournalEntryLine.line_number l1 <= JournalEntryLine.line_number l2.

#[global] Instance line_number_le_dec : RelDecision line_number_le.
Proof. intros l1 l2. unfold line_number_le. apply _. Defined.

(** [self.lines.all()]: the lines whose [journal_entry] is this entry, in
    the order of [Meta.ordering], by [line_number]. *)
Definition lines_all (d : Database) (e : t) : list JournalEntryLine.t :=
  merge_sort line_number_le
    (filter (fun l => JournalEntryLine.journal_entry l = pk e) (journalentryline d)).

(** [line.account]: each line object fetches its own copy of the account
    row from the table when the attribute is first read, so a second line
    on the same account sees the balance the first one saved. *)
Definition line_account (line : JournalEntryLine.t) : M Store ChartOfAccount.t :=
  s ← get;
  match chartofaccount (db s) !! JournalEntryLine.account line with
  | Some a => mret a
  | None => raise DoesNotExist
  end.

Section Methods.
(** [_generate_entry_number], as a function of the entries table (and
    of the date of the day it is called on). *)
Variable generate_entry_number : gmap Z t -> string.

Definition save : M Store unit :=
  s ← get;
  (if bool_decide (entry_number (self s) = EmptyString) then
     assign (set_entry_number (generate_entry_number (journalentry (db s))))
   else mret tt) ;;
  s ← get;
  write_journalentry (pk (self s)) (self s).

Definition approve (user : User.t) (now : Z) : M Store unit :=
  s ← get;
  if negb (can_approve (self s) user) then
    raise (ValidationError "User cannot approve this entry")
  else
    assign (set_status approved) ;;
    assign (set_approved_by (Some (User.pk user))) ;;
    assign (set_approved_at (Some now)) ;;
    save.

Definition post (user : User.t) (now : Z) : M Store unit :=
  s ← get;
  if negb (can_post (self s) user) then
    raise (ValidationError "User cannot post this entry")
  else
    atomic (
      s ← get;
      for_each (lines_all (db s) (self s)) (fun line =>
        account ← line_account line;
        write_chartofaccount (JournalEntryLine.account line)
          (ChartOfAccount.set_current_balance
             (ChartOfAccount.current_balance account
              + (JournalEntryLine.debit_amount line
                 - JournalEntryLine.credit_amount line))
             account)) ;;
      assign (set_status posted) ;;
      assign (set_posted_by (Some (User.pk user))) ;;
      assign (set_posted_at (Some now)) ;;
      save).

Definition reverse (user : User.t) : M Store unit :=
  s ← get;
  if negb (bool_decide (status (self s) = posted)) then
    raise (ValidationError "Only posted entries can be reversed")
  else
    (* Create reversing entry logic here *)
    mret tt.
End Methods.
End JournalEntry.

(** ** The validators of the period columns of the other models *)

(** [IntegerField.validators] of [TrialBalance.fiscal_period] and of
    [FinancialPeriod.period_number]: the declared
    [validators=[MinValueValidator(1), MinValueValidator(12)]], followed by
    the range validators that the database backend appends for an integer
    column.  What the backend appends differs from one backend to another:
    it is the argument [backend]. *)
Definition TrialBalance_fiscal_period_validators
    (backend : list (Z -> Outcome unit)) : list (Z -> Outcome unit) :=
  [MinValueValidator 1; MinValueValidator 12] ++ backend.

Definition FinancialPeriod_period_number_validators
    (backend : list (Z -> Outcome unit)) : list (Z -> Outcome unit) :=
  [MinValueValidator 1; MinValueValidator 12] ++ backend.

(** [MaxValueValidator(limit_value)(value)] raises when
    [value > limit_value]. *)
Definition MaxValueValidator (limit_value value : Z) : Outcome unit :=
  if value >? limit_value then
    Raise (ValidationError
       ("Ensure this value is less than or equal to " +:+ pretty limit_value +:+ "."))
  else Return tt.

(** ** financial_statements: statement codes and calculations *)

(** [f"{n:02d}"]: at least two characters, zero-padded after the sign. *)
Definition format_02d (n : Z) : string :=
  if (0 <=? n) && (n <? 10) then "0" +:+ pretty n else pretty n.

(** [str.upper] on the ASCII letters, which is all the statement types
    hold. *)
Definition ascii_upper (c : Ascii.ascii) : Ascii.ascii :=
  let n := Ascii.nat_of_ascii c in
  if (97 <=? n)%nat && (n <=? 122)%nat then Ascii.ascii_of_nat (n - 32) else c.

Fixpoint upper (s : string) : string :=
  match s with
  | EmptyString => EmptyString
  | String c s' => String (ascii_upper c) (upper s')
  end.

Module FinancialStatement.
(** [STATEMENT_TYPES], and the value each one stores. *)
Inductive StatementType : Type :=
| sfp | sfp_performance | scf | scna | ppes | ips | notes
| budget_vs_actual | segment | consolidated.

#[global] Instance StatementType_eq_dec : EqDecision StatementType.
Proof. solve_decision. Defined.

Definition value (ty : StatementType) : string :=
  match ty with
  | sfp => "sfp"
  | sfp_performance => "sfp_performance"
  | scf => "scf"
  | scna => "scna"
  | ppes => "ppes"
  | ips => "ips"
  | notes => "notes"
  | budget_vs_actual => "budget_vs_actual"
  | segment => "segment"
  | consolidated => "consolidated"
  end.

Record t : Type := mk {
  statement_type : StatementType;
  statement_name : string;
  statement_code : string;
  version : Z
}.

(** [_generate_statement_code]; [financial_period] is the row
    [self.financial_period] refers to. *)
Definition _generate_statement_code (self : t) (financial_period : FinancialPeriod.t)
  : string :=
  let prefix := String.substring 0 3 (upper (value (statement_type self))) in
  let year := FinancialPeriod.fiscal_year financial_period in
  let period := FinancialPeriod.period_number financial_period in
  prefix +:+ pretty year +:+ format_02d period +:+ format_02d (version self).

(** [save]: the object as [super().save()] writes it. *)
Definition save (self : t) (financial_period : FinancialPeriod.t) : t :=
  if bool_decide (statement_code self = EmptyString) then
    mk (statement_type self) (statement_name self)
       (_generate_statement_code self financial_period) (version self)
  else self.
End FinancialStatement.

Module StatementOfFinancialPosition.
Record t : Type := mk {
  total_assets : Decimal;
  total_liabilities : Decimal;
  total_equity : Decimal;
  current_assets : Decimal;
  current_liabilities : Decimal;
  working_capital : Decimal
}.

(** The methods assign to [self] and return a value: the result is the
    value and the object after the call. *)
Definition calculate_working_capital (self : t) : Decimal * t :=
  let self := mk (total_assets self) (total_liabilities self) (total_equity self)
                 (current_assets self) (current_liabilities self)
                 (current_assets self - current_liabilities self) in
  (working_capital self, self).
End StatementOfFinancialPosition.

Module StatementOfFinancialPerformance.
Record t : Type := mk {
  total_revenue : Decimal;
  total_expenses : Decimal;
  net_surplus_deficit : Decimal;
  budgeted_revenue : Decimal;
  budgeted_expenses : Decimal;
  budgeted_surplus_deficit : Decimal;
  revenue_variance : Decimal;
  expense_variance : Decimal
}.

Definition calculate_net_surplus_deficit (self : t) : Decimal * t :=
  let self := mk (total_revenue self) (total_expenses self)
                 (total_revenue self - total_expenses self)
                 (budgeted_revenue self) (budgeted_expenses self)
                 (budgeted_surplus_deficit self)
                 (revenue_variance self) (expense_variance self) in
  (net_surplus_deficit self, self).

Definition calculate_variances (self : t) : (Decimal * Decimal) * t :=
  let self := mk (total_revenue self) (total_expenses self) (net_surplus_deficit self)
                 (budgeted_revenue self) (budgeted_expenses self)
                 (budgeted_surplus_deficit self)
                 (total_revenue self - budgeted_revenue self) (expense_variance self) in
  let self := mk (total_revenue self) (total_expenses self) (net_surplus_deficit self)
                 (budgeted_revenue self) (budgeted_expenses self)
                 (budgeted_surplus_deficit self)
                 (revenue_variance self) (total_expenses self - budgeted_expenses self) in
  ((revenue_variance self, expense_variance self), self).
End StatementOfFinancialPerformance.

Module StatementOfCashFlows.
Record t : Type := mk {
  cash_from_operations : Decimal;
  cash_used_in_operations : Decimal;
  net_cash_from_operations : Decimal;
  cash_from_investing : Decimal;
  cash_used_in_investing : Decimal;
  net_cash_from_investing : Decimal;
  cash_from_financing : Decimal;
  cash_used_in_financing : Decimal;
  net_cash_from_financing : Decimal;
  net_change_in_cash : Decimal;
  cash_at_beginning : Decimal;
  cash_at_end : Decimal
}.

Definition set_net_cash_from_operations (v : Decimal) (s : t) : t :=
  mk (cash_from_operations s) (cash_used_in_operations s) v
     (cash_from_investing s) (cash_used_in_investing s) (net_cash_from_investing s)
     (cash_from_financing s) (cash_used_in_financing s) (net_cash_from_financing s)
     (net_change_in_cash s) (cash_at_beginning s) (cash_at_end s).
Definition set_net_cash_from_investing (v : Decimal) (s : t) : t :=
  mk (cash_from_operations s) (cash_used_in_operations s) (net_cash_from_operations s)
     (cash_from_investing s) (cash_used_in_investing s) v
     (cash_from_financing s) (cash_used_in_financing s) (net_cash_from_financing s)
     (net_change_in_cash s) (cash_at_beginning s) (cash_at_end s).
Definition set_net_cash_from_financing (v : Decimal) (s : t) : t :=
  mk (cash_from_operations s) (cash_used_in_operations s) (net_cash_from_operations s)
     (cash_from_investing s) (cash_used_in_investing s) (net_cash_from_investing s)
     (cash_from_financing s) (cash_used_in_financing s) v
     (net_change_in_cash s) (cash_at_beginning s) (cash_at_end s).
Definition set_net_change_in_cash (v : Decimal) (s : t) : t :=
  mk (cash_from_operations s) (cash_used_in_operations s) (net_cash_from_operations s)
     (cash_from_investing s) (cash_used_in_investing s) (net_cash_from_investing s)
     (cash_from_financing s) (cash_used_in_financing s) (net_cash_from_financing s)
     v (cash_at_beginning s) (cash_at_end s).
Definition set_cash_at_end (v : Decimal) (s : t) : t :=
  mk (cash_from_operations s) (cash_used_in_operations s) (net_cash_from_operations s)
     (cash_from_investing s) (cash_used_in_investing s) (net_cash_from_investing s)
     (cash_from_financing s) (cash_used_in_financing s) (net_cash_from_financing s)
     (net_change_in_cash s) (cash_at_beginning s) v.

Definition calculate_net_cash_flows (self : t) : Decimal * t :=
  let self := set_net_cash_from_operations
                (cash_from_operations self - cash_used_in_operations self) self in
  let self := set_net_cash_from_investing
                (cash_from_investing self - cash_used_in_investing self) self in
  let self := set_net_cash_from_financing
                (cash_from_financing self - cash_used_in_financing self) self in
  let self := set_net_change_in_cash
                (net_cash_from_operations self
                 + net_cash_from_investing self
                 + net_cash_from_financing self) self in
  let self := set_cash_at_end (cash_at_beginning self + net_change_in_cash self) self in
  (net_change_in_cash self, self).
End StatementOfCashFlows.

Module PropertyPlantEquipment.
Record t : Type := mk {
  cost_at_beginning : Decimal;
  additions : Decimal;
  disposals : Decimal;
  revaluations : Decimal;
  transfers : Decimal;
  cost_at_end : Decimal;
  accumulated_depreciation_beginning : Decimal;
  depreciation_expense : Decimal;
  accumulated_depreciation_disposals : Decimal;
  accumulated_depreciation_revaluations : Decimal;
  accumulated_depreciation_end : Decimal;
  carrying_amount_beginning : Decimal;
  carrying_amount_end : Decimal
}.

Definition set_cost_at_end (v : Decimal) (s : t) : t :=
  mk (cost_at_beginning s) (additions s) (disposals s) (revaluations s) (transfers s) v
     (accumulated_depreciation_beginning s) (depreciation_expense s)
     (accumulated_depreciation_disposals s) (accumulated_depreciation_revaluations s)
     (accumulated_depreciation_end s) (carrying_amount_beginning s) (carrying_amount_end s).
Definition set_accumulated_depreciation_end (v : Decimal) (s : t) : t :=
  mk (cost_at_beginning s) (additions s) (disposals s) (revaluations s) (transfers s)
     (cost_at_end s)
     (accumulated_depreciation_beginning s) (depreciation_expense s)
     (accumulated_depreciation_disposals s) (accumulated_depreciation_revaluations s)
     v (carrying_amount_beginning s) (carrying_amount_end s).
Definition set_carrying_amount_beginning (v : Decimal) (s : t) : t :=
  mk (cost_at_beginning s) (additions s) (disposals s) (revaluations s) (transfers s)
     (cost_at_end s)
     (accumulated_depreciation_beginning s) (depreciation_expense s)
     (accumulated_depreciation_disposals s) (accumulated_depreciation_revaluations s)
     (accumulated_depreciation_end s) v (carrying_amount_end s).
Definition set_carrying_amount_end (v : Decimal) (s : t) : t :=
  mk (cost_at_beginning s) (additions s) (disposals s) (revaluations s) (transfers s)
     (cost_at_end s)
     (accumulated_depreciation_beginning s) (depreciation_expense s)
     (accumulated_depreciation_disposals s) (accumulated_depreciation_revaluations s)
     (accumulated_depreciation_end s) (carrying_amount_beginning s) v.

Definition calculate_carrying_amounts (self : t) : Decimal * t :=
  let self := set_cost_at_end
                (cost_at_beginning self + additions self - disposals self
                 + revaluations self + transfers self) self in
  let self := set_accumulated_depreciation_end
                (accumulated_depreciation_beginning self + depreciation_expense self
                 - accumulated_depreciation_disposals self
                 + accumulated_depreciation_revaluations self) self in
  let self := set_carrying_amount_beginning
                (cost_at_beginning self - accumulated_depreciation_beginning self) self in
  let self := set_carrying_amount_end
                (cost_at_end self - accumulated_depreciation_end self) self in
  (carrying_amount_end self, self).
End PropertyPlantEquipment.

(** ** Vocabulary of the statements *)

(** The signed amount [post] adds for one line. *)
Definition line_delta (l : JournalEntryLine.t) : Decimal :=
  JournalEntryLine.debit_amount l - JournalEntryLine.credit_amount l.

(** The sum of the signed amounts of the lines that refer to account [k]. *)
Fixpoint account_delta (k : Z) (ls : list JournalEntryLine.t) : Decimal :=
  match ls with
  | [] => 0
  | l :: ls' =>
      (if bool_decide (JournalEntryLine.account l = k) then line_delta l else 0)
      + account_delta k ls'
  end.

Definition sum_debits (ls : list JournalEntryLine.t) : Decimal :=
  foldr (fun l acc => JournalEntryLine.debit_amount l + acc) 0 ls.

Definition sum_credits (ls : list JournalEntryLine.t) : Decimal :=
  foldr (fun l acc => JournalEntryLine.credit_amount l + acc) 0 ls.

(** The account row after its balance moved by [delta]. *)
Definition adjusted (delta : Decimal) (a : ChartOfAccount.t) : ChartOfAccount.t :=
  ChartOfAccount.set_current_balance (ChartOfAccount.current_balance a + delta) a.

(** The loop of [post] as a function of the accounts table alone: the
    table it leaves, also when a line's account is missing and it stops. *)
Fixpoint apply_lines (ls : list JournalEntryLine.t) (accts : gmap Z ChartOfAccount.t)
  : Outcome unit * gmap Z ChartOfAccount.t :=
  match ls with
  | [] => (Return tt, accts)
  | l :: ls' =>
      match accts !! JournalEntryLine.account l with
      | Some a =>
          apply_lines ls' (<[JournalEntryLine.account l := adjusted (line_delta l) a]> accts)
      | None => (Raise DoesNotExist, accts)
      end
  end.

(** The entry as [save] writes it: numbered when it had no number. *)
Definition numbered (gen : gmap Z JournalEntry.t -> string) (d : JournalEntry.Database)
    (e : JournalEntry.t) : JournalEntry.t :=
  if bool_decide (JournalEntry.entry_number e = EmptyString) then
    JournalEntry.set_entry_number (gen (JournalEntry.journalentry d)) e
  else e.

(** What [post] assigns to the entry before it saves it. *)
Definition stamped_posted (user : User.t) (now : Z) (e : JournalEntry.t) : JournalEntry.t :=
  JournalEntry.set_posted_at (Some now)
    (JournalEntry.set_posted_by (Some (User.pk user))
       (JournalEntry.set_status posted e)).

Definition stamped_approved (user : User.t) (now : Z) (e : JournalEntry.t) : JournalEntry.t :=
  JournalEntry.set_approved_at (Some now)
    (JournalEntry.set_approved_by (Some (User.pk user))
       (JournalEntry.set_status approved e)).

Definition with_accounts (accts : gmap Z ChartOfAccount.t) (d : JournalEntry.Database)
  : JournalEntry.Database :=
  JournalEntry.mkDatabase accts (JournalEntry.journalentry d)
    (JournalEntry.journalentryline d) (JournalEntry.financialperiod d).

Definition with_entry (e : JournalEntry.t) (d : JournalEntry.Database)
  : JournalEntry.Database :=
  JournalEntry.mkDatabase (JournalEntry.chartofaccount d)
    (<[JournalEntry.pk e := e]> (JournalEntry.journalentry d))
    (JournalEntry.journalentryline d) (JournalEntry.financialperiod d).

Definition with_periods (ps : list FinancialPeriod.t) (d : JournalEntry.Database)
  : JournalEntry.Database :=
  JournalEntry.mkDatabase (JournalEntry.chartofaccount d) (JournalEntry.journalentry d)
    (JournalEntry.journalentryline d) ps.

(** Every line of the entry refers to an account that is in the table, as
    the foreign key ([on_delete=PROTECT]) keeps it. *)
Definition lines_resolve (d : JournalEntry.Database) (e : JournalEntry.t) : Prop :=
  Forall (fun l => is_Some (JournalEntry.chartofaccount d !! JournalEntryLine.account l))
         (JournalEntry.lines_all d e).

(** The calls a client can make on an entry, and a run of such calls, each
    on the store the one before it left (whether or not it raised). *)
Inductive Call : Type :=
| CallSave
| CallApprove (user : User.t) (now : Z)
| CallPost (user : User.t) (now : Z)
| CallReverse (user : User.t).

Definition call (gen : gmap Z JournalEntry.t -> string) (c : Call)
  : M JournalEntry.Store unit :=
  match c with
  | CallSave => JournalEntry.save gen
  | CallApprove user now => JournalEntry.approve gen user now
  | CallPost user now => JournalEntry.post gen user now
  | CallReverse user => JournalEntry.reverse user
  end.

Definition run_calls (gen : gmap Z JournalEntry.t -> string) (cs : list Call)
    (s : JournalEntry.Store) : JournalEntry.Store :=
  foldl (fun s c => snd (call gen c s)) s cs.

(** *** The specification's words, for comparison with the code *)

Module Spec.
(** "entry's FinancialPeriod is open": some period of the table contains
    the entry's date and has status open. *)
Definition entry_period_is_open (d : JournalEntry.Database) (e : JournalEntry.t) : bool :=
  existsb (fun p =>
             (FinancialPeriod.start_date p <=? JournalEntry.entry_date e)
             && (JournalEntry.entry_date e <=? FinancialPeriod.end_date p)
             && bool_decide (FinancialPeriod.status p = period_open))
          (JournalEntry.financialperiod d).

(** "debit-normal: closing = opening + period_debit - period_credit;
    credit-normal: closing = opening + period_credit - period_debit". *)
Definition closing_balance (polarity : NormalBalance)
    (opening_ period_debit period_credit : Decimal) : Decimal :=
  match polarity with
  | debit => opening_ + period_debit - period_credit
  | credit => opening_ + period_credit - period_debit
  end.
End Spec.

Import JournalEntry.

(** The body of the loop of [post], for one line. *)
Definition post_line (line : JournalEntryLine.t) : M Store unit :=
  account ← line_account line;
  write_chartofaccount (JournalEntryLine.account line)
    (ChartOfAccount.set_current_balance
       (ChartOfAccount.current_balance account
        + (JournalEntryLine.debit_amount line - JournalEntryLine.credit_amount line))
       account).

(** *** A small ledger, for the examples

    Two accounts, Cash (debit-normal, key 1) and Revenue (credit-normal,
    key 2); one entry (key 7) with the lines "Cash debit 100.00" and
    "Revenue credit 100.00", dated inside a period that is closed. *)
Module Example.
Definition gen : gmap Z JournalEntry.t -> string := fun _ => "JE2024010001".

Definition cash : ChartOfAccount.t :=
  ChartOfAccount.mk "1000" "Cash" debit 0 50000 true.
Definition revenue : ChartOfAccount.t :=
  ChartOfAccount.mk "4000" "Revenue" credit 0 (-20000) true.

Definition cash_line : JournalEntryLine.t := JournalEntryLine.mk 7 1 1 10000 0.
Definition revenue_line : JournalEntryLine.t := JournalEntryLine.mk 7 2 2 0 10000.

Definition entry (st : Status) : JournalEntry.t :=
  JournalEntry.mk 7 "JE2024010007" 100 EmptyString regular st 2024 1 10000 10000
    1 None None None None.

Definition january_closed : FinancialPeriod.t :=
  FinancialPeriod.mk 2024 1 90 120 period_closed.

Definition ledger (st : Status) : Database :=
  mkDatabase {[1 := cash; 2 := revenue]} {[7 := entry st]}
    [revenue_line; cash_line] [january_closed].

Definition the_manager : User.t := User.mk 10 manager.
Definition the_accountant : User.t := User.mk 11 accountant.
Definition the_viewer : User.t := User.mk 12 viewer.

(** An entry (key 8) with a single line, "Cash debit 100.00", whose
    header totals are both left at the default 0.00. *)
Definition lone_line : JournalEntryLine.t := JournalEntryLine.mk 8 1 1 10000 0.
Definition lopsided (st : Status) : JournalEntry.t :=
  JournalEntry.mk 8 "JE2024010008" 100 EmptyString regular st 2024 12 0 0
    1 None None None None.
Definition lopsided_ledger (st : Status) : Database :=
  mkDatabase {[1 := cash; 2 := revenue]} {[8 := lopsided st]} [lone_line] [].

(** A balanced entry in fiscal period 5. *)
Definition may_entry : JournalEntry.t :=
  JournalEntry.mk 9 "JE2024050001" 130 EmptyString regular draft 2024 5 10000 10000
    1 None None None None.

(** A draft entry (key 9, no lines) whose header totals differ by one
    cent, and the ledger that holds it. *)
Definition short_entry : JournalEntry.t :=
  JournalEntry.mk 9 "JE2024050002" 130 EmptyString regular draft 2024 5 10000 9999
    1 None None None None.
Definition short_ledger : Database :=
  mkDatabase {[1 := cash; 2 := revenue]} {[9 := short_entry]} [] [].

(** A trial balance line with a period debit of 100.00 and nothing else. *)
Definition moved_line : TrialBalanceLine.t :=
  TrialBalanceLine.mk 1 1 0 0 10000 0 0 0.
Definition closing_line : TrialBalanceLine.t :=
  TrialBalanceLine.mk 1 1 0 0 0 0 50000 0.
End Example.

(** *** Vocabulary of the further properties *)

(** The sum of the current balances of all the accounts of the table. *)
Definition total_balance (accts : gmap Z ChartOfAccount.t) : Decimal :=
  map_fold (fun _ a acc => ChartOfAccount.current_balance a + acc) 0 accts.


(** A balance that the column can hold: at most the fifteen digits of
    [max_digits=15], two of them decimals. *)
Definition fits (b : Decimal) : bool := (- 10 ^ 15 <? b) && (b <? 10 ^ 15).

(** Every balance the loop of [post] reads, and every balance it writes,
    fits the column. *)
Fixpoint balances_fit (ls : list JournalEntryLine.t) (accts : gmap Z ChartOfAccount.t)
  : bool :=
  match ls with
  | [] => true
  | l :: ls' =>
      match accts !! JournalEntryLine.account l with
      | Some a =>
          fits (ChartOfAccount.current_balance a)
          && fits (ChartOfAccount.current_balance a + line_delta l)
          && balances_fit ls'
               (<[JournalEntryLine.account l := adjusted (line_delta l) a]> accts)
      | None => true
      end
  end.

(** The entry carries a number and no other stored entry carries the same
    one: the write of [save] meets the unique constraint on
    [entry_number]. *)
Definition number_is_free (d : Database) (e : JournalEntry.t) : Prop :=
  entry_number e <> EmptyString
  /\ map_Forall (fun k e0 => entry_number e0 = entry_number e -> k = pk e)
                (journalentry d).

(** The line's account is not in the table. *)
Definition dangling (d : Database) (l : JournalEntryLine.t) : Prop :=
  chartofaccount d !! JournalEntryLine.account l = None.

(** Further sample data: an entry (key 5) whose second line refers to an
    account (key 3) that the table does not hold; a cash-flow statement and
    an asset schedule. *)
Module Sample.
Definition good_line : JournalEntryLine.t := JournalEntryLine.mk 5 1 1 10000 0.
Definition orphan_line : JournalEntryLine.t := JournalEntryLine.mk 5 3 2 0 10000.
Definition orphan_entry : JournalEntry.t :=
  JournalEntry.mk 5 "JE2024010005" 100 EmptyString regular approved 2024 1 10000 10000
    1 None None None None.
Definition orphan_ledger : Database :=
  mkDatabase {[1 := Example.cash; 2 := Example.revenue]} {[5 := orphan_entry]}
    [good_line; orphan_line] [].

Definition bare_entry : JournalEntry.t :=
  JournalEntry.mk 6 "JE2024010006" 100 EmptyString regular approved 2024 1 0 0
    1 None None None None.
Definition bare_ledger : Database :=
  mkDatabase {[1 := Example.cash; 2 := Example.revenue]} {[6 := bare_entry]} [] [].

Definition the_admin : User.t := User.mk 13 admin.
Definition the_auditor : User.t := User.mk 14 auditor.

Definition cash_flows : StatementOfCashFlows.t :=
  StatementOfCashFlows.mk 90000 40000 1 20000 50000 2 30000 10000 3 4 100000 5.

Definition plant : PropertyPlantEquipment.t :=
  PropertyPlantEquipment.mk 500000 80000 30000 10000 5000 1
                            200000 40000 20000 3000 2 3 4.

Definition performance : StatementOfFinancialPerformance.t :=
  StatementOfFinancialPerformance.mk 900000 700000 1 850000 720000 2 3 4.

Definition january : FinancialPeriod.t := FinancialPeriod.mk 2024 1 1 31 period_open.
End Sample.

(** * Properties *)

(** ** The posting loop *)

Lemma with_accounts_id (d : Database) : with_accounts (chartofaccount d) d = d.
Proof. by destruct d. Qed.

Lemma for_each_post_line (ls : list JournalEntryLine.t) (s : Store) :
  for_each ls post_line s =
    (fst (apply_lines ls (chartofaccount (db s))),
     mkStore (with_accounts (snd (apply_lines ls (chartofaccount (db s)))) (db s)) (self s)).
Proof.
  revert s. induction ls as [|l ls IH]; intros [d e]; simpl.
  - by rewrite with_accounts_id.
  - unfold mbind at 1, M_bind. unfold post_line at 1, line_account.
    unfold mbind, M_bind, get. simpl.
    destruct (chartofaccount d !! JournalEntryLine.account l) as [a|] eqn:Ha; simpl.
    + rewrite IH. simpl. reflexivity.
    + by rewrite with_accounts_id.
Qed.

Lemma post_eq gen user now d e :
  post gen user now (mkStore d e) =
    if can_post e user then
      match apply_lines (lines_all d e) (chartofaccount d) with
      | (Return _, accts') =>
          let e' := numbered gen d (stamped_posted user now e) in
          (Return tt, mkStore (with_entry e' (with_accounts accts' d)) e')
      | (Raise x, _) => (Raise x, mkStore d e)
      end
    else (Raise (ValidationError "User cannot post this entry"), mkStore d e).
Proof.
  unfold post. unfold mbind at 1, M_bind at 1, get at 1. cbn [self db].
  destruct (can_post e user); cbn [negb]; [|reflexivity].
  unfold atomic. unfold mbind at 1, M_bind at 1, get at 1. cbn [self db].
  unfold mbind at 1, M_bind at 1.
  change (for_each (lines_all d e) _ (mkStore d e))
    with (for_each (lines_all d e) post_line (mkStore d e)).
  rewrite for_each_post_line. cbn [self db].
  destruct (apply_lines (lines_all d e) (chartofaccount d)) as [[[]|x] accts'];
    cbn [fst snd]; [|reflexivity].
  unfold save, assign, modify, write_journalentry, mbind, M_bind, get, mret, M_ret.
  cbn [self db]. unfold numbered, stamped_posted.
  cbn [entry_number set_posted_at set_posted_by set_status].
  case_bool_decide; reflexivity.
Qed.

Lemma post_raise_rolls_back gen user now d e x :
  fst (post gen user now (mkStore d e)) = Raise x ->
  snd (post gen user now (mkStore d e)) = mkStore d e.
Proof.
  rewrite post_eq. destruct (can_post e user); [|done].
  by destruct (apply_lines (lines_all d e) (chartofaccount d)) as [[[]|y] accts'].
Qed.

Lemma save_eq gen d e :
  save gen (mkStore d e) =
    (Return tt, mkStore (with_entry (numbered gen d e) d) (numbered gen d e)).
Proof.
  unfold save, assign, modify, write_journalentry, mbind, M_bind, get, mret, M_ret.
  cbn [self db]. unfold numbered. case_bool_decide; reflexivity.
Qed.

Lemma approve_eq gen user now d e :
  approve gen user now (mkStore d e) =
    if can_approve e user then
      let e' := numbered gen d (stamped_approved user now e) in
      (Return tt, mkStore (with_entry e' d) e')
    else (Raise (ValidationError "User cannot approve this entry"), mkStore d e).
Proof.
  unfold approve. unfold mbind at 1, M_bind at 1, get at 1. cbn [self db].
  destruct (can_approve e user); cbn [negb]; [|reflexivity].
  unfold save, assign, modify, write_journalentry, mbind, M_bind, get, mret, M_ret.
  cbn [self db]. unfold numbered, stamped_approved.
  cbn [entry_number set_approved_at set_approved_by set_status].
  case_bool_decide; reflexivity.
Qed.

Lemma reverse_eq user d e :
  reverse user (mkStore d e) =
    if bool_decide (status e = posted) then (Return tt, mkStore d e)
    else (Raise (ValidationError "Only posted entries can be reversed"), mkStore d e).
Proof.
  unfold reverse, mbind, M_bind, get. cbn [self db].
  by case_bool_decide.
Qed.

Lemma can_post_true e user :
  can_post e user = true <->
  status e = approved /\ (User.role user = admin \/ User.role user = accountant).
Proof.
  unfold can_post. destruct e as [? ? ? ? ? st ? ? ? ? ? ? ? ? ?], user as [? r].
  cbn [status User.role]. destruct st, r; vm_compute; split; intros H;
    try done; try (split; [done|]; by (left + right));
    destruct H as [? [?|?]]; done.
Qed.

Lemma can_approve_true e user :
  can_approve e user = true <->
  status e = pending /\ (User.role user = admin \/ User.role user = manager).
Proof.
  unfold can_approve. destruct e as [? ? ? ? ? st ? ? ? ? ? ? ? ? ?], user as [? r].
  cbn [status User.role]. destruct st, r; vm_compute; split; intros H;
    try done; try (split; [done|]; by (left + right));
    destruct H as [? [?|?]]; done.
Qed.

Lemma numbered_status gen d e : status (numbered gen d e) = status e.
Proof. unfold numbered. by case_bool_decide. Qed.

Lemma numbered_pk gen d e : pk (numbered gen d e) = pk e.
Proof. unfold numbered. by case_bool_decide. Qed.

Lemma numbered_posted_by gen d e : posted_by (numbered gen d e) = posted_by e.
Proof. unfold numbered. by case_bool_decide. Qed.

Lemma numbered_posted_at gen d e : posted_at (numbered gen d e) = posted_at e.
Proof. unfold numbered. by case_bool_decide. Qed.

(** ** Balances after the loop *)

Lemma adjusted_adjusted x y a : adjusted x (adjusted y a) = adjusted (y + x) a.
Proof.
  unfold adjusted, ChartOfAccount.set_current_balance.
  cbn [ChartOfAccount.current_balance ChartOfAccount.account_number
       ChartOfAccount.account_name ChartOfAccount.normal_balance
       ChartOfAccount.opening_balance ChartOfAccount.is_active].
  f_equal. lia.
Qed.

Lemma adjusted_0 a : adjusted 0 a = a.
Proof.
  destruct a. unfold adjusted, ChartOfAccount.set_current_balance.
  cbn. f_equal. lia.
Qed.

Lemma adjusted_current_balance x a :
  ChartOfAccount.current_balance (adjusted x a) = ChartOfAccount.current_balance a + x.
Proof. reflexivity. Qed.

Lemma apply_lines_resolved (ls : list JournalEntryLine.t) :
  forall accts : gmap Z ChartOfAccount.t,
    Forall (fun l => is_Some (accts !! JournalEntryLine.account l)) ls ->
    exists accts' : gmap Z ChartOfAccount.t,
      apply_lines ls accts = (Return tt, accts') /\
      forall k, accts' !! k = adjusted (account_delta k ls) <$> accts !! k.
Proof.
  induction ls as [|l ls IH]; intros accts Hres.
  - exists accts. split; [done|]. intros k. cbn [account_delta].
    destruct (accts !! k) as [a|]; cbn; [|done]. by rewrite adjusted_0.
  - apply Forall_cons in Hres as [[a Ha] Hres]. cbn [apply_lines]. rewrite Ha.
    destruct (IH (<[JournalEntryLine.account l := adjusted (line_delta l) a]> accts))
      as (accts' & Happ & Hlook).
    { eapply Forall_impl; [exact Hres|]. intros l' Hl'. cbn in Hl'.
      by apply lookup_insert_is_Some'; right. }
    exists accts'. split; [done|]. intros k. rewrite Hlook. cbn [account_delta].
    case_bool_decide as Hk.
    + subst k. rewrite lookup_insert_eq, Ha. cbn. by rewrite adjusted_adjusted.
    + rewrite lookup_insert_ne by done. by rewrite Z.add_0_l.
Qed.

Lemma apply_lines_dangling (ls : list JournalEntryLine.t) :
  forall accts : gmap Z ChartOfAccount.t,
    Exists (fun l => accts !! JournalEntryLine.account l = None) ls ->
    fst (apply_lines ls accts) = Raise DoesNotExist.
Proof.
  induction ls as [|l ls IH]; intros accts Hex; [by apply Exists_nil in Hex|].
  cbn [apply_lines].
  destruct (accts !! JournalEntryLine.account l) as [a|] eqn:Ha; [|done].
  apply IH. apply Exists_cons in Hex as [Hl|Hex]; [congruence|].
  eapply Exists_impl; [exact Hex|]. intros l' Hl'. cbn in Hl'.
  destruct (decide (JournalEntryLine.account l = JournalEntryLine.account l')) as [Heq|Hne].
  - rewrite <- Heq in Hl'. congruence.
  - by rewrite lookup_insert_ne.
Qed.

(** ** Posting *)

Lemma post_returns gen user now d e :
  can_post e user = true ->
  lines_resolve d e ->
  exists accts' : gmap Z ChartOfAccount.t,
    post gen user now (mkStore d e)
      = (Return tt,
         mkStore (with_entry (numbered gen d (stamped_posted user now e))
                             (with_accounts accts' d))
                 (numbered gen d (stamped_posted user now e))) /\
    forall k, accts' !! k
              = adjusted (account_delta k (lines_all d e)) <$> chartofaccount d !! k.
Proof.
  intros Hcan Hres.
  destruct (apply_lines_resolved _ _ Hres) as (accts' & Happ & Hlook).
  exists accts'. by rewrite post_eq, Hcan, Happ.
Qed.

Lemma adjusted_row (accts accts' : gmap Z ChartOfAccount.t) k x a :
  accts' !! k = adjusted x <$> accts !! k ->
  accts !! k = Some a ->
  exists a',
    accts' !! k = Some a' /\
    ChartOfAccount.current_balance a' = ChartOfAccount.current_balance a + x /\
    ChartOfAccount.account_number a' = ChartOfAccount.account_number a /\
    ChartOfAccount.account_name a' = ChartOfAccount.account_name a /\
    ChartOfAccount.normal_balance a' = ChartOfAccount.normal_balance a /\
    ChartOfAccount.opening_balance a' = ChartOfAccount.opening_balance a /\
    ChartOfAccount.is_active a' = ChartOfAccount.is_active a.
Proof.
  intros Hlook Ha. exists (adjusted x a). rewrite Hlook, Ha.
  split; [reflexivity|]. split; [apply adjusted_current_balance|].
  by split_and!.
Qed.

(** C1: for an entry whose status is approved and an actor whose role is
    accountant or admin, [post] returns; in the accounts table it leaves,
    the [current_balance] of every account is its [current_balance] before
    plus the sum of [debit_amount - credit_amount] over the entry's lines on
    that account, its other columns are as before, and no account appears;
    the entry has status posted, [posted_by] the actor and [posted_at] the
    time of the call, and is saved so.  The hypotheses are what the
    database requires: the lines refer to accounts of the table (the
    foreign key), every balance read or written has at most the fifteen
    digits of the column, and the entry's number is its own (the unique
    constraint). *)
Theorem post_applies_signed_deltas gen user now d e :
  status e = approved ->
  User.role user = accountant \/ User.role user = admin ->
  lines_resolve d e ->
  balances_fit (lines_all d e) (chartofaccount d) = true ->
  number_is_free d e ->
  exists d' e',
    post gen user now (mkStore d e) = (Return tt, mkStore d' e') /\
    (forall k a,
       chartofaccount d !! k = Some a ->
       exists a',
         chartofaccount d' !! k = Some a' /\
         ChartOfAccount.current_balance a'
           = ChartOfAccount.current_balance a + account_delta k (lines_all d e) /\
         ChartOfAccount.account_number a' = ChartOfAccount.account_number a /\
         ChartOfAccount.account_name a' = ChartOfAccount.account_name a /\
         ChartOfAccount.normal_balance a' = ChartOfAccount.normal_balance a /\
         ChartOfAccount.opening_balance a' = ChartOfAccount.opening_balance a /\
         ChartOfAccount.is_active a' = ChartOfAccount.is_active a) /\
    (forall k, chartofaccount d !! k = None -> chartofaccount d' !! k = None) /\
    status e' = posted /\
    posted_by e' = Some (User.pk user) /\
    posted_at e' = Some now /\
    journalentry d' !! pk e = Some e'.
Proof.
  intros Hst Hrole Hres _ _.
  assert (Hcan : can_post e user = true) by (apply can_post_true; tauto).
  destruct (post_returns gen user now d e Hcan Hres) as (accts' & Hpost & Hlook).
  eexists _, _. split; [exact Hpost|].
  cbn [with_entry with_accounts chartofaccount journalentry]. split_and!.
  - intros k a Ha. by apply (adjusted_row (chartofaccount d)).
  - intros k Hk. by rewrite Hlook, Hk.
  - by rewrite numbered_status.
  - by rewrite numbered_posted_by.
  - by rewrite numbered_posted_at.
  - rewrite numbered_pk. apply lookup_insert_eq.
Qed.

Lemma post_applies_signed_deltas_witness :
  exists d' e',
    post Example.gen Example.the_accountant 6
         (mkStore (Example.ledger approved) (Example.entry approved))
      = (Return tt, mkStore d' e') /\
    (forall k a,
       chartofaccount (Example.ledger approved) !! k = Some a ->
       exists a',
         chartofaccount d' !! k = Some a' /\
         ChartOfAccount.current_balance a'
           = ChartOfAccount.current_balance a
             + account_delta k (lines_all (Example.ledger approved)
                                          (Example.entry approved)) /\
         ChartOfAccount.account_number a' = ChartOfAccount.account_number a /\
         ChartOfAccount.account_name a' = ChartOfAccount.account_name a /\
         ChartOfAccount.normal_balance a' = ChartOfAccount.normal_balance a /\
         ChartOfAccount.opening_balance a' = ChartOfAccount.opening_balance a /\
         ChartOfAccount.is_active a' = ChartOfAccount.is_active a) /\
    (forall k, chartofaccount (Example.ledger approved) !! k = None ->
               chartofaccount d' !! k = None) /\
    status e' = posted /\
    posted_by e' = Some 11 /\
    posted_at e' = Some 6 /\
    journalentry d' !! 7 = Some e'.
Proof.
  apply (post_applies_signed_deltas Example.gen Example.the_accountant 6
           (Example.ledger approved) (Example.entry approved)).
  - reflexivity.
  - left. reflexivity.
  - apply (bool_decide_unpack _). vm_compute. reflexivity.
  - vm_compute. reflexivity.
  - apply (bool_decide_unpack _). vm_compute. reflexivity.
Defined.

(** On the numbers of the example: posting the entry "Cash debit 100.00,
    Revenue credit 100.00" takes Cash from 500.00 to 600.00 and Revenue from
    -200.00 to -300.00. *)
Lemma post_example_balances :
  ChartOfAccount.current_balance
    <$> chartofaccount
          (db (snd (post Example.gen Example.the_accountant 6
                      (mkStore (Example.ledger approved) (Example.entry approved))))) !! 1
    = Some 60000
  /\ ChartOfAccount.current_balance
       <$> chartofaccount
             (db (snd (post Example.gen Example.the_accountant 6
                         (mkStore (Example.ledger approved)
                                  (Example.entry approved))))) !! 2
     = Some (-30000).
Proof. by vm_compute. Qed.

(** C3 (as stated, fails): in the example ledger the only period that
    contains the entry's date is closed, yet [post] by the accountant
    returns, moves the Cash balance from 500.00 to 600.00 and leaves the
    entry posted. *)
Lemma post_in_closed_period_succeeds :
  Spec.entry_period_is_open (Example.ledger approved) (Example.entry approved) = false /\
  exists d' e',
    post Example.gen Example.the_accountant 6
         (mkStore (Example.ledger approved) (Example.entry approved))
      = (Return tt, mkStore d' e') /\
    ChartOfAccount.current_balance <$> chartofaccount (Example.ledger approved) !! 1
      = Some 50000 /\
    ChartOfAccount.current_balance <$> chartofaccount d' !! 1 = Some 60000 /\
    status e' = posted.
Proof.
  split; [reflexivity|]. eexists _, _.
  split; [vm_compute; reflexivity|]. by vm_compute.
Qed.

(** C3 (amended): [post] does not read the financial periods: with any
    other periods table its outcome, the accounts, the entries and the
    object are the same, and the periods table is left as given.  What
    [post] checks before it touches anything is the entry's status and the
    actor's role: when the status is not approved, or the role is neither
    admin nor accountant, it raises and the database and the entry are as
    before the call. *)
Theorem post_ignores_financial_periods gen user now d e ps :
  post gen user now (mkStore (with_periods ps d) e)
    = (fst (post gen user now (mkStore d e)),
       mkStore (with_periods ps (db (snd (post gen user now (mkStore d e)))))
               (self (snd (post gen user now (mkStore d e)))))
  /\ (status e <> approved
      \/ (User.role user <> admin /\ User.role user <> accountant) ->
      post gen user now (mkStore d e)
        = (Raise (ValidationError "User cannot post this entry"), mkStore d e)).
Proof.
  split.
  - rewrite !post_eq.
    change (lines_all (with_periods ps d) e) with (lines_all d e).
    change (chartofaccount (with_periods ps d)) with (chartofaccount d).
    destruct (can_post e user); [|reflexivity].
    destruct (apply_lines (lines_all d e) (chartofaccount d)) as [[[]|x] accts'];
      reflexivity.
  - intros Hno. rewrite post_eq.
    destruct (can_post e user) eqn:Hcan; [|reflexivity].
    apply can_post_true in Hcan. tauto.
Qed.

Lemma post_ignores_financial_periods_witness :
  post Example.gen Example.the_viewer 6
       (mkStore (with_periods [] (Example.ledger approved)) (Example.entry approved))
    = (Raise (ValidationError "User cannot post this entry"),
       mkStore (with_periods [] (Example.ledger approved)) (Example.entry approved))
  /\ post Example.gen Example.the_viewer 6
           (mkStore (Example.ledger approved) (Example.entry approved))
     = (Raise (ValidationError "User cannot post this entry"),
        mkStore (Example.ledger approved) (Example.entry approved))
  /\ post Example.gen Example.the_accountant 6
           (mkStore (Example.ledger pending) (Example.entry pending))
     = (Raise (ValidationError "User cannot post this entry"),
        mkStore (Example.ledger pending) (Example.entry pending)).
Proof.
  split; [|split].
  - apply (proj1 (post_ignores_financial_periods Example.gen Example.the_viewer 6
                    (Example.ledger approved) (Example.entry approved) [])).
  - apply (proj2 (post_ignores_financial_periods Example.gen Example.the_viewer 6
                    (Example.ledger approved) (Example.entry approved) [])).
    right. split; discriminate.
  - apply (proj2 (post_ignores_financial_periods Example.gen Example.the_accountant 6
                    (Example.ledger pending) (Example.entry pending) [])).
    left. discriminate.
Defined.

(** C4 (as stated, fails): on the posted entry of the example, [post] by
    the accountant raises [ValidationError "User cannot post this entry"].
    The viewer, who has no posting capability, gets the same error on the
    approved entry, and the accountant gets it on the draft entry: the error
    does not say that the entry is already posted. *)
Lemma post_error_is_not_already_posted :
  fst (post Example.gen Example.the_accountant 8
         (mkStore (Example.ledger posted) (Example.entry posted)))
    = Raise (ValidationError "User cannot post this entry")
  /\ fst (post Example.gen Example.the_accountant 8
            (mkStore (Example.ledger posted) (Example.entry posted)))
     <> Raise (ValidationError "already posted")
  /\ fst (post Example.gen Example.the_viewer 8
            (mkStore (Example.ledger approved) (Example.entry approved)))
     = fst (post Example.gen Example.the_accountant 8
              (mkStore (Example.ledger posted) (Example.entry posted)))
  /\ fst (post Example.gen Example.the_accountant 8
            (mkStore (Example.ledger draft) (Example.entry draft)))
     = fst (post Example.gen Example.the_accountant 8
              (mkStore (Example.ledger posted) (Example.entry posted))).
Proof. by vm_compute. Qed.

(** C4 (amended): when the entry's status is not approved, [post] raises
    [ValidationError "User cannot post this entry"], the error it also
    raises for an actor without posting capability, and leaves the database
    and every field of the entry as they were.  Hence, when a first [post]
    has returned, a second [post] on the entry it left raises in this way,
    and the [current_balance] of every account remains its balance before
    the first call plus one sum of [debit_amount - credit_amount] over the
    entry's lines on that account. *)
Theorem post_unless_approved gen user now d e :
  (status e <> approved ->
   post gen user now (mkStore d e)
     = (Raise (ValidationError "User cannot post this entry"), mkStore d e))
  /\ (User.role user <> admin -> User.role user <> accountant ->
      post gen user now (mkStore d e)
        = (Raise (ValidationError "User cannot post this entry"), mkStore d e))
  /\ (forall user0 now0 d0 e0,
        post gen user0 now0 (mkStore d0 e0) = (Return tt, mkStore d e) ->
        post gen user now (mkStore d e)
          = (Raise (ValidationError "User cannot post this entry"), mkStore d e)
        /\ forall k a,
             chartofaccount d0 !! k = Some a ->
             exists a',
               chartofaccount (db (snd (post gen user now (mkStore d e)))) !! k
                 = Some a' /\
               ChartOfAccount.current_balance a'
                 = ChartOfAccount.current_balance a
                   + account_delta k (lines_all d0 e0)).
Proof.
  assert (Hnot : ~ (status e = approved
                    /\ (User.role user = admin \/ User.role user = accountant)) ->
                 post gen user now (mkStore d e)
                 = (Raise (ValidationError "User cannot post this entry"), mkStore d e)).
  { intros Hno. rewrite post_eq.
    destruct (can_post e user) eqn:Hcan; [|reflexivity].
    apply can_post_true in Hcan. tauto. }
  split; [intros; apply Hnot; tauto|]. split; [intros; apply Hnot; tauto|].
  intros user0 now0 d0 e0 Hfirst. rewrite post_eq in Hfirst.
  destruct (can_post e0 user0) eqn:Hcan; [|discriminate].
  destruct (apply_lines (lines_all d0 e0) (chartofaccount d0)) as [[[]|x] accts'] eqn:Happ;
    [|discriminate].
  cbn zeta in Hfirst. injection Hfirst as Hd He.
  assert (Hsecond : post gen user now (mkStore d e)
                    = (Raise (ValidationError "User cannot post this entry"), mkStore d e)).
  { apply Hnot. rewrite <- He, numbered_status. intros [? _]. discriminate. }
  split; [exact Hsecond|].
  intros k a Ha. rewrite Hsecond. cbn [snd db]. rewrite <- Hd.
  cbn [with_entry with_accounts chartofaccount].
  destruct (decide (Forall (fun l => is_Some (chartofaccount d0 !! JournalEntryLine.account l))
                           (lines_all d0 e0))) as [Hres|Hdang].
  - destruct (apply_lines_resolved _ _ Hres) as (accts'' & Happ' & Hlook).
    rewrite Happ in Happ'. injection Happ' as <-.
    destruct (adjusted_row _ _ k _ a (Hlook k) Ha) as (a' & Ha' & Hbal & _).
    by exists a'.
  - apply not_Forall_Exists in Hdang; [|apply _].
    assert (Hraise : fst (apply_lines (lines_all d0 e0) (chartofaccount d0))
                     = Raise DoesNotExist).
    { apply apply_lines_dangling. eapply Exists_impl; [exact Hdang|].
      intros l Hl. cbn in Hl. by apply eq_None_not_Some. }
    rewrite Happ in Hraise. discriminate.
Qed.

Lemma post_unless_approved_witness :
  post Example.gen Example.the_accountant 8
       (mkStore (Example.ledger posted) (Example.entry posted))
    = (Raise (ValidationError "User cannot post this entry"),
       mkStore (Example.ledger posted) (Example.entry posted))
  /\ post Example.gen Example.the_viewer 8
           (mkStore (Example.ledger approved) (Example.entry approved))
     = (Raise (ValidationError "User cannot post this entry"),
        mkStore (Example.ledger approved) (Example.entry approved))
  /\ (let s1 := snd (post Example.gen Example.the_accountant 6
                       (mkStore (Example.ledger approved) (Example.entry approved))) in
      post Example.gen Example.the_accountant 8 s1
        = (Raise (ValidationError "User cannot post this entry"), s1)
      /\ exists a',
           chartofaccount (db (snd (post Example.gen Example.the_accountant 8 s1))) !! 1
             = Some a' /\
           ChartOfAccount.current_balance a'
             = 50000 + account_delta 1 (lines_all (Example.ledger approved)
                                                  (Example.entry approved))).
Proof.
  split; [|split].
  - apply (proj1 (post_unless_approved Example.gen Example.the_accountant 8
                    (Example.ledger posted) (Example.entry posted))).
    vm_compute. discriminate.
  - apply (proj1 (proj2 (post_unless_approved Example.gen Example.the_viewer 8
                           (Example.ledger approved) (Example.entry approved))));
      vm_compute; discriminate.
  - cbn zeta.
    destruct (proj2 (proj2 (post_unless_approved Example.gen Example.the_accountant 8
                (db (snd (post Example.gen Example.the_accountant 6
                    (mkStore (Example.ledger approved) (Example.entry approved)))))
                (self (snd (post Example.gen Example.the_accountant 6
                    (mkStore (Example.ledger approved) (Example.entry approved)))))))
              Example.the_accountant 6
              (Example.ledger approved) (Example.entry approved)) as [Hsecond Hbal].
    + vm_compute. reflexivity.
    + split; [exact Hsecond|].
      apply (Hbal 1 Example.cash). vm_compute. reflexivity.
Defined.

(** ** Reversal *)

Lemma reverse_unless_posted user d e :
  status e <> posted ->
  reverse user (mkStore d e)
    = (Raise (ValidationError "Only posted entries can be reversed"), mkStore d e).
Proof. intros Hst. rewrite reverse_eq. by case_bool_decide. Qed.

Lemma reverse_posted_is_noop user d e :
  status e = posted -> reverse user (mkStore d e) = (Return tt, mkStore d e).
Proof. intros Hst. rewrite reverse_eq. by case_bool_decide. Qed.

(** C5: [reverse] on the posted entry of the example ledger returns and
    leaves the database and the entry as it found them: the entries table
    still holds the one entry and the lines table its two lines, and no
    balance has moved; no reversing entry is created. *)
Theorem reverse_posted_entry_creates_nothing :
  reverse Example.the_accountant
          (mkStore (Example.ledger posted) (Example.entry posted))
    = (Return tt, mkStore (Example.ledger posted) (Example.entry posted))
  /\ size (journalentry (Example.ledger posted)) = 1%nat
  /\ length (journalentryline (Example.ledger posted)) = 2%nat.
Proof. split; [apply reverse_posted_is_noop; reflexivity|]. by vm_compute. Qed.

(** ** Approval followed by posting *)

Lemma approve_then_post_eq gen mgr acct t1 t2 d e :
  can_approve e mgr = true ->
  (approve gen mgr t1 ;; post gen acct t2) (mkStore d e)
    = post gen acct t2
        (mkStore (with_entry (numbered gen d (stamped_approved mgr t1 e)) d)
                 (numbered gen d (stamped_approved mgr t1 e))).
Proof.
  intros Hcan. unfold mbind at 1, M_bind at 1. by rewrite approve_eq, Hcan.
Qed.

(** C9 (as stated, fails): in the example ledger, after the manager
    approves and the accountant posts the entry "Cash debit 100.00, Revenue
    credit 100.00", the current balance of Revenue went from -200.00 to
    -300.00: it decreased by 100.00, it did not increase by 100.00. *)
Lemma revenue_current_balance_decreases :
  exists d' e',
    (approve Example.gen Example.the_manager 5 ;;
     post Example.gen Example.the_accountant 6)
      (mkStore (Example.ledger pending) (Example.entry pending))
      = (Return tt, mkStore d' e') /\
    ChartOfAccount.current_balance <$> chartofaccount (Example.ledger pending) !! 2
      = Some (-20000) /\
    ChartOfAccount.current_balance <$> chartofaccount d' !! 2 = Some (-20000 - 10000) /\
    ChartOfAccount.current_balance <$> chartofaccount d' !! 2 <> Some (-20000 + 10000).
Proof.
  eexists _, _. split; [vm_compute; reflexivity|]. by vm_compute.
Qed.

(** C9 (amended): for a pending entry whose lines are "Cash debit 100.00"
    and "Revenue credit 100.00" on two different accounts, approval by a
    manager followed by posting by an accountant returns; Cash's current
    balance has increased by 100.00, Revenue's current balance has decreased
    by 100.00, so that the balance displayed for Revenue, when it is
    credit-normal, has increased by 100.00; and the entry's status is
    posted. *)
Theorem cash_revenue_entry_posted gen mgr acct t1 t2 d e cash_line revenue_line
    cash revenue :
  status e = pending ->
  User.role mgr = manager ->
  User.role acct = accountant ->
  lines_all d e = [cash_line; revenue_line] ->
  JournalEntryLine.debit_amount cash_line = 10000 ->
  JournalEntryLine.credit_amount cash_line = 0 ->
  JournalEntryLine.debit_amount revenue_line = 0 ->
  JournalEntryLine.credit_amount revenue_line = 10000 ->
  JournalEntryLine.account cash_line <> JournalEntryLine.account revenue_line ->
  chartofaccount d !! JournalEntryLine.account cash_line = Some cash ->
  chartofaccount d !! JournalEntryLine.account revenue_line = Some revenue ->
  exists d' e' cash' revenue',
    (approve gen mgr t1 ;; post gen acct t2) (mkStore d e) = (Return tt, mkStore d' e') /\
    chartofaccount d' !! JournalEntryLine.account cash_line = Some cash' /\
    chartofaccount d' !! JournalEntryLine.account revenue_line = Some revenue' /\
    ChartOfAccount.current_balance cash' = ChartOfAccount.current_balance cash + 10000 /\
    ChartOfAccount.current_balance revenue'
      = ChartOfAccount.current_balance revenue - 10000 /\
    (ChartOfAccount.normal_balance revenue = credit ->
     ChartOfAccount.get_balance_display revenue'
       = ChartOfAccount.get_balance_display revenue + 10000) /\
    status e' = posted.
Proof.
  intros Hst Hmgr Hacct Hlines Hcd Hcc Hrd Hrc Hne Hcash Hrev.
  assert (Hcan : can_approve e mgr = true) by (apply can_approve_true; tauto).
  set (e1 := numbered gen d (stamped_approved mgr t1 e)).
  assert (Hlines1 : lines_all (with_entry e1 d) e1 = [cash_line; revenue_line]).
  { rewrite <- Hlines. unfold lines_all. cbn [with_entry journalentryline].
    unfold e1. by rewrite numbered_pk. }
  destruct (post_returns gen acct t2 (with_entry e1 d) e1)
    as (accts' & Hpost & Hlook).
  - apply can_post_true. unfold e1. rewrite numbered_status. split; [done|by right].
  - unfold lines_resolve. rewrite Hlines1. cbn [with_entry chartofaccount].
    repeat constructor; by eexists.
  - rewrite Hlines1 in Hlook. cbn [with_entry chartofaccount] in Hlook.
    eexists _, _, (adjusted 10000 cash), (adjusted (-10000) revenue).
    split; [rewrite approve_then_post_eq by done; exact Hpost|].
    assert (Hdc : account_delta (JournalEntryLine.account cash_line)
                    [cash_line; revenue_line] = 10000).
    { cbn [account_delta]. rewrite bool_decide_eq_true_2 by done.
      rewrite bool_decide_eq_false_2 by done. unfold line_delta. lia. }
    assert (Hdr : account_delta (JournalEntryLine.account revenue_line)
                    [cash_line; revenue_line] = -10000).
    { cbn [account_delta]. rewrite bool_decide_eq_false_2 by done.
      rewrite bool_decide_eq_true_2 by done. unfold line_delta. lia. }
    split_and!.
    + by rewrite Hlook, Hdc, Hcash.
    + by rewrite Hlook, Hdr, Hrev.
    + apply adjusted_current_balance.
    + rewrite adjusted_current_balance. lia.
    + intros Hcr. unfold ChartOfAccount.get_balance_display.
      change (ChartOfAccount.normal_balance (adjusted (-10000) revenue))
        with (ChartOfAccount.normal_balance revenue).
      rewrite Hcr, adjusted_current_balance.
      rewrite !bool_decide_eq_false_2 by discriminate. lia.
    + by rewrite numbered_status.
Qed.

Lemma cash_revenue_entry_posted_witness :
  exists d' e' cash' revenue',
    (approve Example.gen Example.the_manager 5 ;;
     post Example.gen Example.the_accountant 6)
      (mkStore (Example.ledger pending) (Example.entry pending))
      = (Return tt, mkStore d' e') /\
    chartofaccount d' !! 1 = Some cash' /\
    chartofaccount d' !! 2 = Some revenue' /\
    ChartOfAccount.current_balance cash' = 50000 + 10000 /\
    ChartOfAccount.current_balance revenue' = -20000 - 10000 /\
    (credit = credit ->
     ChartOfAccount.get_balance_display revenue' = 20000 + 10000) /\
    status e' = posted.
Proof.
  apply (cash_revenue_entry_posted Example.gen Example.the_manager
           Example.the_accountant 5 6 (Example.ledger pending) (Example.entry pending)
           Example.cash_line Example.revenue_line Example.cash Example.revenue).
  - reflexivity.
  - reflexivity.
  - reflexivity.
  - vm_compute. reflexivity.
  - reflexivity.
  - reflexivity.
  - reflexivity.
  - reflexivity.
  - vm_compute. discriminate.
  - vm_compute. reflexivity.
  - vm_compute. reflexivity.
Defined.

(** ** Validation of an entry, and the statuses the methods reach *)

Lemma clean_eq e :
  clean e =
    if bool_decide (total_debits e = total_credits e) then
      if bool_decide (1 <= fiscal_period e <= 12) then Return tt
      else Raise (ValidationError "Fiscal period must be between 1 and 12")
    else Raise (ValidationError "Total debits must equal total credits").
Proof.
  unfold clean.
  destruct (Z.eqb_spec (total_debits e) (total_credits e)) as [Heq|Hne]; cbn [negb].
  - rewrite bool_decide_eq_true_2 by done.
    destruct (Z.ltb_spec (fiscal_period e) 1), (Z.gtb_spec (fiscal_period e) 12);
      cbn [orb]; case_bool_decide; (done || lia).
  - by rewrite bool_decide_eq_false_2.
Qed.

(** One call moves the status along draft, pending -> approved -> posted,
    or leaves it. *)
Lemma call_status gen c s :
  status (self (snd (call gen c s))) = status (self s)
  \/ (status (self s) = pending /\ status (self (snd (call gen c s))) = approved)
  \/ (status (self s) = approved /\ status (self (snd (call gen c s))) = posted).
Proof.
  destruct s as [d e]. destruct c as [|user now|user now|user]; cbn [call].
  - rewrite save_eq. cbn [snd self]. left. apply numbered_status.
  - rewrite approve_eq. destruct (can_approve e user) eqn:Hcan; [|by left].
    apply can_approve_true in Hcan as [Hst _]. right; left.
    cbn [snd self]. by rewrite numbered_status.
  - rewrite post_eq. destruct (can_post e user) eqn:Hcan; [|by left].
    apply can_post_true in Hcan as [Hst _].
    destruct (apply_lines (lines_all d e) (chartofaccount d)) as [[[]|x] accts'];
      [|by left].
    right; right. cbn [snd self]. by rewrite numbered_status.
  - rewrite reverse_eq. case_bool_decide; by left.
Qed.

Lemma run_calls_snoc gen cs c s :
  run_calls gen (cs ++ [c]) s = snd (call gen c (run_calls gen cs s)).
Proof. unfold run_calls. by rewrite foldl_app. Qed.

Lemma run_calls_keep_draft gen cs s :
  status (self s) = draft -> status (self (run_calls gen cs s)) = draft.
Proof.
  intros Hst. induction cs as [|c cs IH] using rev_ind; [done|].
  rewrite run_calls_snoc.
  destruct (call_status gen c (run_calls gen cs s)) as [H|[[H _]|[H _]]]; congruence.
Qed.

Lemma run_calls_pending_from_pending gen cs s :
  status (self (run_calls gen cs s)) = pending -> status (self s) = pending.
Proof.
  induction cs as [|c cs IH] using rev_ind; [done|].
  rewrite run_calls_snoc.
  destruct (call_status gen c (run_calls gen cs s)) as [H|[[_ H]|[_ H]]];
    intros Hp; [apply IH|..]; congruence.
Qed.

(** C2 (as stated, fails), on two entries of the example.  The entry whose
    only line is "Cash debit 100.00" has debit amounts summing to 100.00
    and credit amounts summing to 0.00, yet it passes [clean] and the whole
    [full_clean], its header totals being equal; from pending it is approved
    and posted.  The draft entry whose header totals differ by one cent
    fails [clean]; with [status] assigned pending, [save] stores it as
    pending without validating, and it is then approved and posted. *)
Lemma unbalanced_entries_pass :
  (sum_debits (lines_all (Example.lopsided_ledger pending) (Example.lopsided pending))
     = 10000 /\
   sum_credits (lines_all (Example.lopsided_ledger pending) (Example.lopsided pending))
     = 0 /\
   clean (Example.lopsided pending) = Return tt /\
   full_clean (Example.lopsided pending) = Return tt /\
   status (self (run_calls Example.gen
                   [CallApprove Example.the_manager 5; CallPost Example.the_accountant 6]
                   (mkStore (Example.lopsided_ledger pending) (Example.lopsided pending))))
     = posted)
  /\
  (status Example.short_entry = draft /\
   total_debits Example.short_entry <> total_credits Example.short_entry /\
   clean Example.short_entry
     = Raise (ValidationError "Total debits must equal total credits") /\
   save Example.gen (mkStore Example.short_ledger (set_status pending Example.short_entry))
     = (Return tt,
        mkStore (with_entry (set_status pending Example.short_entry) Example.short_ledger)
                (set_status pending Example.short_entry)) /\
   status (self (run_calls Example.gen
                   [CallSave; CallApprove Example.the_manager 5;
                    CallPost Example.the_accountant 6]
                   (mkStore Example.short_ledger
                            (set_status pending Example.short_entry))))
     = posted).
Proof. split; by vm_compute. Qed.

(** C2 (amended): validation compares the stored header fields
    [total_debits] and [total_credits]: an entry in which they differ fails
    [clean] with "Total debits must equal total credits" and fails
    [full_clean], and an entry that passes [clean] has them equal exactly.
    Validation does not gate the status: [save] stores any entry and
    returns, and no sequence of calls of [save], [approve], [post] and
    [reverse] takes an entry out of draft or brings an entry that was not
    pending to pending. *)
Theorem clean_compares_header_totals gen e :
  (total_debits e <> total_credits e ->
   clean e = Raise (ValidationError "Total debits must equal total credits")
   /\ succeeded (full_clean e) = false)
  /\ (clean e = Return tt -> total_debits e = total_credits e)
  /\ (forall d, fst (save gen (mkStore d e)) = Return tt
                /\ journalentry (db (snd (save gen (mkStore d e)))) !! pk e
                   = Some (numbered gen d e))
  /\ (forall cs d, status e = draft ->
                   status (self (run_calls gen cs (mkStore d e))) = draft)
  /\ (forall cs d, status (self (run_calls gen cs (mkStore d e))) = pending ->
                   status e = pending).
Proof.
  split_and!.
  - intros Hne.
    assert (Hc : clean e = Raise (ValidationError "Total debits must equal total credits")).
    { rewrite clean_eq. by rewrite bool_decide_eq_false_2. }
    split; [exact Hc|]. unfold full_clean. rewrite Hc. cbn [error_list].
    by destruct (error_list (clean_fields e)).
  - rewrite clean_eq. case_bool_decide; [done|discriminate].
  - intros d. rewrite save_eq. cbn [fst snd db with_entry journalentry].
    split; [done|]. rewrite <- (numbered_pk gen d e) at 1. apply lookup_insert_eq.
  - intros cs d Hst. by apply run_calls_keep_draft.
  - intros cs d Hp. by apply run_calls_pending_from_pending in Hp.
Qed.

Lemma clean_compares_header_totals_witness :
  (clean Example.short_entry
     = Raise (ValidationError "Total debits must equal total credits")
   /\ succeeded (full_clean Example.short_entry) = false)
  /\ total_debits (Example.entry draft) = total_credits (Example.entry draft)
  /\ status (self (run_calls Example.gen
                     [CallSave; CallApprove Example.the_manager 5;
                      CallPost Example.the_accountant 6;
                      CallReverse Example.the_accountant]
                     (mkStore (Example.ledger draft) (Example.entry draft)))) = draft
  /\ status (Example.entry pending) = pending.
Proof.
  split; [|split; [|split]].
  - apply (proj1 (clean_compares_header_totals Example.gen Example.short_entry)).
    vm_compute. discriminate.
  - apply (proj1 (proj2 (clean_compares_header_totals Example.gen
                           (Example.entry draft)))).
    vm_compute. reflexivity.
  - apply (proj1 (proj2 (proj2 (proj2 (clean_compares_header_totals Example.gen
                                         (Example.entry draft)))))).
    reflexivity.
  - apply (proj2 (proj2 (proj2 (proj2 (clean_compares_header_totals Example.gen
                                         (Example.entry pending)))))
             [CallSave; CallReverse Example.the_accountant]
             (Example.ledger pending)).
    vm_compute. reflexivity.
Defined.

(** ** The fiscal period of an entry *)

Lemma clean_fiscal_period_iff e :
  total_debits e = total_credits e ->
  clean e = Return tt <-> 1 <= fiscal_period e <= 12.
Proof.
  intros Heq. rewrite clean_eq, bool_decide_eq_true_2 by done.
  case_bool_decide; split; (done || lia).
Qed.

Lemma clean_fiscal_period_outside e :
  total_debits e = total_credits e ->
  ~ 1 <= fiscal_period e <= 12 ->
  clean e = Raise (ValidationError "Fiscal period must be between 1 and 12").
Proof.
  intros Heq Hout. rewrite clean_eq, bool_decide_eq_true_2 by done.
  by rewrite bool_decide_eq_false_2.
Qed.

Lemma MinValueValidator_accepts_iff limit value :
  MinValueValidator limit value = Return tt <-> limit <= value.
Proof.
  unfold MinValueValidator. destruct (Z.ltb_spec value limit); split; (done || lia).
Qed.

Lemma raise_if_any_returns errors : raise_if_any errors = Return tt <-> errors = [].
Proof. by destruct errors. Qed.

Lemma error_list_MinValueValidator limit value :
  error_list (MinValueValidator limit value) = [] <-> limit <= value.
Proof.
  unfold MinValueValidator. destruct (Z.ltb_spec value limit); split; (done || lia).
Qed.

Lemma fiscal_period_validators_accept_iff p :
  run_validators fiscal_period_validators p = Return tt <-> 12 <= p.
Proof.
  unfold run_validators, fiscal_period_validators. rewrite raise_if_any_returns.
  cbn [flat_map]. rewrite app_nil_r, app_nil, !error_list_MinValueValidator. lia.
Qed.

Lemma full_clean_iff e :
  full_clean e = Return tt <->
  total_debits e = total_credits e /\ fiscal_period e = 12.
Proof.
  unfold full_clean. rewrite raise_if_any_returns, app_nil. split.
  - intros [Hv Hc].
    assert (Hp : 12 <= fiscal_period e).
    { apply fiscal_period_validators_accept_iff. unfold clean_fields in Hv.
      unfold run_validators in *.
      destruct (flat_map (fun v => error_list (v (fiscal_period e)))
                         fiscal_period_validators); [done|discriminate]. }
    rewrite clean_eq in Hc. case_bool_decide; [|discriminate].
    case_bool_decide; [|discriminate]. split; [done|lia].
  - intros [Heq Hp]. split.
    + unfold clean_fields.
      by rewrite (proj2 (fiscal_period_validators_accept_iff (fiscal_period e))) by lia.
    + rewrite clean_eq, !bool_decide_eq_true_2; (done || lia).
Qed.

(** C6: the balanced entry of the example with fiscal period 5 passes
    [clean], whose check admits 1 to 12; the validators declared on the
    field, [MinValueValidator(1)] and [MinValueValidator(12)], reject the
    value 5, and [full_clean] raises. *)
Theorem fiscal_period_five_rejected_by_field_validators :
  fiscal_period Example.may_entry = 5 /\
  total_debits Example.may_entry = total_credits Example.may_entry /\
  clean Example.may_entry = Return tt /\
  clean_fields Example.may_entry
    = Raise (ValidationErrors ["Ensure this value is greater than or equal to 12."]) /\
  full_clean Example.may_entry
    = Raise (ValidationErrors ["Ensure this value is greater than or equal to 12."]).
Proof. by vm_compute. Qed.

(** ** Validation of a line *)

Lemma line_clean_eq (l : JournalEntryLine.t) :
  JournalEntryLine.clean l =
    if bool_decide (JournalEntryLine.debit_amount l < 0
                    \/ JournalEntryLine.credit_amount l < 0) then
      Raise (ValidationError "Amounts cannot be negative")
    else if bool_decide (0 < JournalEntryLine.debit_amount l
                         /\ 0 < JournalEntryLine.credit_amount l) then
      Raise (ValidationError "Line cannot have both debit and credit amounts")
    else if bool_decide (JournalEntryLine.debit_amount l = 0
                         /\ JournalEntryLine.credit_amount l = 0) then
      Raise (ValidationError "Line must have either debit or credit amount")
    else Return tt.
Proof.
  unfold JournalEntryLine.clean.
  destruct (Z.ltb_spec (JournalEntryLine.debit_amount l) 0),
           (Z.ltb_spec (JournalEntryLine.credit_amount l) 0),
           (Z.gtb_spec (JournalEntryLine.debit_amount l) 0),
           (Z.gtb_spec (JournalEntryLine.credit_amount l) 0),
           (Z.eqb_spec (JournalEntryLine.debit_amount l) 0),
           (Z.eqb_spec (JournalEntryLine.credit_amount l) 0);
    cbn [orb andb]; repeat case_bool_decide; (done || lia).
Qed.

(** C7: a line passes [clean] exactly when both amounts are non-negative
    and exactly one of them is strictly positive; a line with a negative
    amount, with both amounts positive, or with both amounts zero raises a
    validation error. *)
Theorem line_clean_accepts_iff (l : JournalEntryLine.t) :
  (JournalEntryLine.clean l = Return tt <->
   0 <= JournalEntryLine.debit_amount l /\ 0 <= JournalEntryLine.credit_amount l /\
   ((0 < JournalEntryLine.debit_amount l /\ ~ 0 < JournalEntryLine.credit_amount l)
    \/ (~ 0 < JournalEntryLine.debit_amount l /\ 0 < JournalEntryLine.credit_amount l)))
  /\ (JournalEntryLine.debit_amount l < 0 \/ JournalEntryLine.credit_amount l < 0 ->
      JournalEntryLine.clean l = Raise (ValidationError "Amounts cannot be negative"))
  /\ (0 < JournalEntryLine.debit_amount l /\ 0 < JournalEntryLine.credit_amount l ->
      JournalEntryLine.clean l
        = Raise (ValidationError "Line cannot have both debit and credit amounts"))
  /\ (JournalEntryLine.debit_amount l = 0 /\ JournalEntryLine.credit_amount l = 0 ->
      JournalEntryLine.clean l
        = Raise (ValidationError "Line must have either debit or credit amount")).
Proof.
  rewrite line_clean_eq. split_and!.
  - repeat case_bool_decide; split; (done || lia).
  - intros H. by rewrite bool_decide_eq_true_2.
  - intros H. rewrite bool_decide_eq_false_2 by lia. by rewrite bool_decide_eq_true_2.
  - intros H. rewrite !bool_decide_eq_false_2 by lia. by rewrite bool_decide_eq_true_2.
Qed.

Lemma line_clean_accepts_iff_witness :
  JournalEntryLine.clean Example.cash_line = Return tt
  /\ JournalEntryLine.clean (JournalEntryLine.mk 7 1 1 (-1) 10000)
     = Raise (ValidationError "Amounts cannot be negative")
  /\ JournalEntryLine.clean (JournalEntryLine.mk 7 1 1 10000 10000)
     = Raise (ValidationError "Line cannot have both debit and credit amounts")
  /\ JournalEntryLine.clean (JournalEntryLine.mk 7 1 1 0 0)
     = Raise (ValidationError "Line must have either debit or credit amount").
Proof.
  split; [|split; [|split]].
  - apply (proj1 (line_clean_accepts_iff Example.cash_line)). vm_compute.
    split; [discriminate|]. split; [discriminate|]. left. split; [reflexivity|discriminate].
  - apply (proj1 (proj2 (line_clean_accepts_iff (JournalEntryLine.mk 7 1 1 (-1) 10000)))).
    left. reflexivity.
  - apply (proj1 (proj2 (proj2
             (line_clean_accepts_iff (JournalEntryLine.mk 7 1 1 10000 10000))))).
    split; reflexivity.
  - apply (proj2 (proj2 (proj2 (line_clean_accepts_iff (JournalEntryLine.mk 7 1 1 0 0))))).
    split; reflexivity.
Defined.

(** ** Trial balance lines *)

(** C8 (as stated, fails): the trial balance line of the example has an
    opening balance of 0.00, a period debit of 100.00 and no period credit;
    its closing balance, as stored and as [get_closing_balance] returns it,
    is 0.00, which is the derived value neither for a debit-normal nor for a
    credit-normal account. *)
Lemma closing_balance_not_derived :
  TrialBalanceLine.get_closing_balance Example.moved_line = 0 /\
  Spec.closing_balance debit
    (TrialBalanceLine.get_opening_balance Example.moved_line)
    (TrialBalanceLine.period_debit Example.moved_line)
    (TrialBalanceLine.period_credit Example.moved_line) = 10000 /\
  Spec.closing_balance credit
    (TrialBalanceLine.get_opening_balance Example.moved_line)
    (TrialBalanceLine.period_debit Example.moved_line)
    (TrialBalanceLine.period_credit Example.moved_line) = -10000.
Proof. by vm_compute. Qed.

(** C8 (amended): the closing balance of a trial balance line is read from
    the stored fields [closing_debit] and [closing_credit] alone: it is
    [closing_debit] when that is positive and minus [closing_credit]
    otherwise, the same for two lines that agree on these two fields,
    whatever their account, opening and period fields. *)
Theorem closing_balance_reads_stored_fields (l l' : TrialBalanceLine.t) :
  TrialBalanceLine.closing_debit l = TrialBalanceLine.closing_debit l' ->
  TrialBalanceLine.closing_credit l = TrialBalanceLine.closing_credit l' ->
  TrialBalanceLine.get_closing_balance l = TrialBalanceLine.get_closing_balance l'
  /\ (0 < TrialBalanceLine.closing_debit l ->
      TrialBalanceLine.get_closing_balance l = TrialBalanceLine.closing_debit l)
  /\ (TrialBalanceLine.closing_debit l <= 0 ->
      TrialBalanceLine.get_closing_balance l = - TrialBalanceLine.closing_credit l).
Proof.
  intros Hd Hc. unfold TrialBalanceLine.get_closing_balance. rewrite <- Hd, <- Hc.
  split; [done|]. destruct (Z.gtb_spec (TrialBalanceLine.closing_debit l) 0); split;
    (done || lia).
Qed.

Lemma closing_balance_reads_stored_fields_witness :
  TrialBalanceLine.get_closing_balance Example.closing_line
    = TrialBalanceLine.get_closing_balance (TrialBalanceLine.mk 1 2 700 0 0 900 50000 0)
  /\ TrialBalanceLine.get_closing_balance Example.closing_line = 50000.
Proof.
  destruct (closing_balance_reads_stored_fields Example.closing_line
              (TrialBalanceLine.mk 1 2 700 0 0 900 50000 0))
    as (Hsame & Hpos & _).
  - reflexivity.
  - reflexivity.
  - split; [exact Hsame|]. apply Hpos. reflexivity.
Defined.

(** ** Validation of an account *)

(** C10: [clean] rejects a credit-normal account whose opening balance is
    negative and a debit-normal account whose opening balance is positive;
    so an account that passes [clean] has an opening balance at most zero
    when it is debit-normal and at least zero when it is credit-normal. *)
Theorem account_clean_opening_balance_sign (a : ChartOfAccount.t) (ty : AccountType.t) :
  (ChartOfAccount.normal_balance a = credit -> ChartOfAccount.opening_balance a < 0 ->
   exists msg, ChartOfAccount.clean a ty = Raise (ValidationError msg))
  /\ (ChartOfAccount.normal_balance a = debit -> 0 < ChartOfAccount.opening_balance a ->
      exists msg, ChartOfAccount.clean a ty = Raise (ValidationError msg))
  /\ (ChartOfAccount.clean a ty = Return tt ->
      (ChartOfAccount.normal_balance a = debit -> ChartOfAccount.opening_balance a <= 0)
      /\ (ChartOfAccount.normal_balance a = credit -> 0 <= ChartOfAccount.opening_balance a)).
Proof.
  unfold ChartOfAccount.clean.
  destruct (bool_decide (ChartOfAccount.normal_balance a = AccountType.normal_balance ty));
    cbn [negb].
  2:{ split_and!; intros; try discriminate; by eexists. }
  destruct (Z.ltb_spec (ChartOfAccount.opening_balance a) 0),
           (Z.gtb_spec (ChartOfAccount.opening_balance a) 0),
           (ChartOfAccount.normal_balance a);
    cbn; split_and!; intros; try done; try lia; try by eexists.
Qed.

Lemma account_clean_opening_balance_sign_witness :
  (exists msg, ChartOfAccount.clean
                 (ChartOfAccount.mk "4000" "Revenue" credit (-1) 0 true)
                 (AccountType.mk credit) = Raise (ValidationError msg))
  /\ (exists msg, ChartOfAccount.clean
                    (ChartOfAccount.mk "1000" "Cash" debit 1 0 true)
                    (AccountType.mk debit) = Raise (ValidationError msg))
  /\ ChartOfAccount.opening_balance Example.cash <= 0
  /\ 0 <= ChartOfAccount.opening_balance Example.revenue.
Proof.
  split; [|split; [|split]].
  - apply (proj1 (account_clean_opening_balance_sign
                    (ChartOfAccount.mk "4000" "Revenue" credit (-1) 0 true)
                    (AccountType.mk credit))); reflexivity.
  - apply (proj1 (proj2 (account_clean_opening_balance_sign
                    (ChartOfAccount.mk "1000" "Cash" debit 1 0 true)
                    (AccountType.mk debit)))); reflexivity.
  - apply (proj1 (proj2 (proj2 (account_clean_opening_balance_sign
                                  Example.cash (AccountType.mk debit))) eq_refl)).
    reflexivity.
  - apply (proj2 (proj2 (proj2 (account_clean_opening_balance_sign
                                  Example.revenue (AccountType.mk credit))) eq_refl)).
    reflexivity.
Defined.

(** * Further properties of the models *)

(** ** Approval *)

(** X1: on a pending entry, [approve] by a manager or an admin returns; the
    entry gets status approved, [approved_by] the actor and [approved_at]
    the time of the call, and is saved under its key; its posting fields
    and totals, the accounts, the lines and the periods are untouched. *)
Theorem approve_pending_entry gen user now d e :
  status e = pending ->
  User.role user = manager \/ User.role user = admin ->
  exists d' e',
    approve gen user now (mkStore d e) = (Return tt, mkStore d' e') /\
    status e' = approved /\
    approved_by e' = Some (User.pk user) /\
    approved_at e' = Some now /\
    posted_by e' = posted_by e /\ posted_at e' = posted_at e /\
    total_debits e' = total_debits e /\ total_credits e' = total_credits e /\
    journalentry d' !! pk e = Some e' /\
    chartofaccount d' = chartofaccount d /\
    journalentryline d' = journalentryline d /\
    financialperiod d' = financialperiod d.
Proof.
  intros Hst Hrole.
  assert (Hcan : can_approve e user = true) by (apply can_approve_true; tauto).
  eexists _, _. rewrite approve_eq, Hcan. cbn zeta. split; [reflexivity|].
  unfold numbered. case_bool_decide; cbn; split_and!; try reflexivity;
    apply lookup_insert_eq.
Qed.

Lemma approve_pending_entry_witness :
  exists d' e',
    approve Example.gen Example.the_manager 5
            (mkStore (Example.ledger pending) (Example.entry pending))
      = (Return tt, mkStore d' e') /\
    status e' = approved /\
    approved_by e' = Some 10 /\
    approved_at e' = Some 5 /\
    posted_by e' = None /\ posted_at e' = None /\
    total_debits e' = 10000 /\ total_credits e' = 10000 /\
    journalentry d' !! 7 = Some e' /\
    chartofaccount d' = chartofaccount (Example.ledger pending) /\
    journalentryline d' = journalentryline (Example.ledger pending) /\
    financialperiod d' = financialperiod (Example.ledger pending).
Proof.
  apply (approve_pending_entry Example.gen Example.the_manager 5
           (Example.ledger pending) (Example.entry pending)).
  - reflexivity.
  - left. reflexivity.
Defined.

(** X2: [approve] raises "User cannot approve this entry" and leaves the
    database and the entry as they were whenever the entry is not pending
    or the actor is neither manager nor admin; so an accountant cannot
    approve, and an approved entry cannot be approved again. *)
Theorem approve_refused gen user now d e :
  status e <> pending \/ (User.role user <> manager /\ User.role user <> admin) ->
  approve gen user now (mkStore d e)
    = (Raise (ValidationError "User cannot approve this entry"), mkStore d e).
Proof.
  intros Hno. rewrite approve_eq.
  destruct (can_approve e user) eqn:Hcan; [|reflexivity].
  apply can_approve_true in Hcan. tauto.
Qed.

Lemma approve_refused_witness :
  approve Example.gen Example.the_accountant 5
          (mkStore (Example.ledger pending) (Example.entry pending))
    = (Raise (ValidationError "User cannot approve this entry"),
       mkStore (Example.ledger pending) (Example.entry pending))
  /\ approve Example.gen Example.the_manager 5
             (mkStore (Example.ledger approved) (Example.entry approved))
     = (Raise (ValidationError "User cannot approve this entry"),
        mkStore (Example.ledger approved) (Example.entry approved)).
Proof.
  split.
  - apply (approve_refused Example.gen Example.the_accountant 5
             (Example.ledger pending) (Example.entry pending)).
    right. split; discriminate.
  - apply (approve_refused Example.gen Example.the_manager 5
             (Example.ledger approved) (Example.entry approved)).
    left. discriminate.
Defined.

(** ** When [post] returns and when it raises *)

Lemma apply_lines_returns_iff (ls : list JournalEntryLine.t)
    (accts : gmap Z ChartOfAccount.t) :
  fst (apply_lines ls accts) = Return tt <->
  Forall (fun l => is_Some (accts !! JournalEntryLine.account l)) ls.
Proof.
  split.
  - intros Hret.
    destruct (decide (Forall (fun l => is_Some (accts !! JournalEntryLine.account l)) ls))
      as [Hres|Hdang]; [done|].
    apply not_Forall_Exists in Hdang; [|apply _].
    rewrite apply_lines_dangling in Hret; [discriminate|].
    eapply Exists_impl; [exact Hdang|]. intros l Hl. cbn in Hl.
    by apply eq_None_not_Some.
  - intros Hres. destruct (apply_lines_resolved _ _ Hres) as (accts' & Happ & _).
    by rewrite Happ.
Qed.

Lemma not_lines_resolve_dangling d e :
  ~ lines_resolve d e <-> Exists (dangling d) (lines_all d e).
Proof.
  unfold lines_resolve, dangling. split.
  - intros Hno. apply not_Forall_Exists in Hno; [|apply _].
    eapply Exists_impl; [exact Hno|]. intros l Hl. cbn in Hl.
    by apply eq_None_not_Some.
  - intros Hex Hall. apply Exists_exists in Hex as (l & Hin & Hl).
    rewrite Forall_forall in Hall. specialize (Hall l Hin).
    rewrite Hl in Hall. by destruct Hall.
Qed.

(** X3: [post] returns only if the entry is approved, the actor is admin
    or accountant, and every line's account is in the accounts table: for
    an entry in any other status, for any other role, or with a line whose
    account is missing, it raises. *)
Theorem post_returns_only_if gen user now d e :
  fst (post gen user now (mkStore d e)) = Return tt ->
  status e = approved
  /\ (User.role user = admin \/ User.role user = accountant)
  /\ lines_resolve d e.
Proof.
  rewrite post_eq. destruct (can_post e user) eqn:Hcan; [|discriminate].
  apply can_post_true in Hcan. unfold lines_resolve.
  rewrite <- apply_lines_returns_iff.
  destruct (apply_lines (lines_all d e) (chartofaccount d)) as [[[]|x] accts'];
    cbn; [tauto|discriminate].
Qed.

Lemma post_returns_only_if_witness :
  status (Example.entry approved) = approved
  /\ (User.role Example.the_accountant = admin
      \/ User.role Example.the_accountant = accountant)
  /\ lines_resolve (Example.ledger approved) (Example.entry approved).
Proof.
  apply (post_returns_only_if Example.gen Example.the_accountant 6
           (Example.ledger approved) (Example.entry approved)).
  vm_compute. reflexivity.
Defined.

(** X4: all or nothing.  When the entry is approved and the actor may post
    but some line's account is missing from the table, [post] raises
    [DoesNotExist], and the database and the entry are exactly as before the
    call: the balances the earlier lines had moved inside the transaction
    are rolled back, and the entry is not marked posted. *)
Theorem post_missing_account_rolls_back gen user now d e :
  status e = approved ->
  User.role user = admin \/ User.role user = accountant ->
  Exists (dangling d) (lines_all d e) ->
  post gen user now (mkStore d e) = (Raise DoesNotExist, mkStore d e).
Proof.
  intros Hst Hrole Hex.
  assert (Hcan : can_post e user = true) by (apply can_post_true; tauto).
  rewrite post_eq, Hcan.
  pose proof (apply_lines_dangling _ _ Hex) as Hraise.
  destruct (apply_lines (lines_all d e) (chartofaccount d)) as [[[]|x] accts'];
    cbn in Hraise; [discriminate|]. by injection Hraise as ->.
Qed.

Lemma post_missing_account_rolls_back_witness :
  post Example.gen Example.the_accountant 6
       (mkStore Sample.orphan_ledger Sample.orphan_entry)
    = (Raise DoesNotExist, mkStore Sample.orphan_ledger Sample.orphan_entry)
  /\ fst (for_each (lines_all Sample.orphan_ledger Sample.orphan_entry) post_line
            (mkStore Sample.orphan_ledger Sample.orphan_entry)) = Raise DoesNotExist
  /\ ChartOfAccount.current_balance
       <$> chartofaccount
             (db (snd (for_each (lines_all Sample.orphan_ledger Sample.orphan_entry)
                         post_line
                         (mkStore Sample.orphan_ledger Sample.orphan_entry)))) !! 1
     = Some 60000.
Proof.
  split; [|by vm_compute].
  apply (post_missing_account_rolls_back Example.gen Example.the_accountant 6
           Sample.orphan_ledger Sample.orphan_entry).
  - reflexivity.
  - right. reflexivity.
  - apply (bool_decide_unpack _). vm_compute. reflexivity.
Defined.

(** X5: an approved entry without lines is posted all the same: [post]
    returns, no account changes, and the entry is marked posted and
    saved. *)
Theorem post_entry_without_lines gen user now d e :
  status e = approved ->
  User.role user = admin \/ User.role user = accountant ->
  lines_all d e = [] ->
  exists d' e',
    post gen user now (mkStore d e) = (Return tt, mkStore d' e') /\
    chartofaccount d' = chartofaccount d /\
    status e' = posted /\
    journalentry d' !! pk e = Some e'.
Proof.
  intros Hst Hrole Hnil.
  assert (Hcan : can_post e user = true) by (apply can_post_true; tauto).
  eexists _, _. rewrite post_eq, Hcan, Hnil. cbn [apply_lines]. cbn zeta.
  split; [reflexivity|]. split_and!.
  - reflexivity.
  - by rewrite numbered_status.
  - cbn [with_entry journalentry]. rewrite numbered_pk. apply lookup_insert_eq.
Qed.

Lemma post_entry_without_lines_witness :
  exists d' e',
    post Example.gen Example.the_accountant 6
         (mkStore Sample.bare_ledger Sample.bare_entry) = (Return tt, mkStore d' e') /\
    chartofaccount d' = chartofaccount Sample.bare_ledger /\
    status e' = posted /\
    journalentry d' !! 6 = Some e'.
Proof.
  apply (post_entry_without_lines Example.gen Example.the_accountant 6
           Sample.bare_ledger Sample.bare_entry).
  - reflexivity.
  - right. reflexivity.
  - vm_compute. reflexivity.
Defined.

(** ** The order of the lines *)



Lemma apply_lines_returned (ls : list JournalEntryLine.t)
    (accts accts' : gmap Z ChartOfAccount.t) :
  apply_lines ls accts = (Return tt, accts') ->
  Forall (fun l => is_Some (accts !! JournalEntryLine.account l)) ls
  /\ forall k, accts' !! k = adjusted (account_delta k ls) <$> accts !! k.
Proof.
  intros Happ.
  assert (Hres : Forall (fun l => is_Some (accts !! JournalEntryLine.account l)) ls).
  { apply apply_lines_returns_iff. by rewrite Happ. }
  split; [exact Hres|].
  destruct (apply_lines_resolved _ _ Hres) as (accts'' & Happ' & Hlook).
  rewrite Happ in Happ'. by injection Happ' as <-.
Qed.




(** ** The total of the balances *)

Lemma total_balance_insert (accts : gmap Z ChartOfAccount.t) k a a' :
  accts !! k = Some a ->
  total_balance (<[k := a']> accts)
    = total_balance accts - ChartOfAccount.current_balance a
      + ChartOfAccount.current_balance a'.
Proof.
  intros Hk. unfold total_balance.
  rewrite (map_fold_delete_L _ _ k a accts); [|intros; lia|done].
  rewrite <- insert_delete_eq.
  rewrite map_fold_insert_L; [lia|intros; lia|apply lookup_delete_eq].
Qed.

Lemma apply_lines_total (ls : list JournalEntryLine.t) :
  forall accts accts' : gmap Z ChartOfAccount.t,
    apply_lines ls accts = (Return tt, accts') ->
    total_balance accts' = total_balance accts + (sum_debits ls - sum_credits ls).
Proof.
  induction ls as [|l ls IH]; intros accts accts'; cbn [apply_lines].
  - intros [= <-]. unfold sum_debits, sum_credits. cbn [foldr]. lia.
  - destruct (accts !! JournalEntryLine.account l) as [a|] eqn:Ha; [|discriminate].
    intros Happ. rewrite (IH _ _ Happ), (total_balance_insert _ _ a) by done.
    rewrite adjusted_current_balance. unfold line_delta, sum_debits, sum_credits.
    cbn [foldr]. lia.
Qed.

(** X7: when [post] returns, the sum of the current balances of all
    accounts has moved by the entry's total debit amount minus its total
    credit amount; so posting an entry whose lines balance leaves the sum of
    all balances unchanged. *)
Theorem post_moves_total_balance gen user now d e d' e' :
  post gen user now (mkStore d e) = (Return tt, mkStore d' e') ->
  total_balance (chartofaccount d')
    = total_balance (chartofaccount d)
      + (sum_debits (lines_all d e) - sum_credits (lines_all d e))
  /\ (sum_debits (lines_all d e) = sum_credits (lines_all d e) ->
      total_balance (chartofaccount d') = total_balance (chartofaccount d)).
Proof.
  intros Hpost. rewrite post_eq in Hpost.
  destruct (can_post e user); [|discriminate].
  destruct (apply_lines (lines_all d e) (chartofaccount d)) as [[[]|x] accts'] eqn:Happ;
    [|discriminate].
  cbn zeta in Hpost. injection Hpost as <- _.
  cbn [with_entry with_accounts chartofaccount].
  pose proof (apply_lines_total _ _ _ Happ) as Htot. split; [exact Htot|]. lia.
Qed.

Lemma post_moves_total_balance_witness :
  total_balance
    (chartofaccount (db (snd (post Example.gen Example.the_accountant 6
                                (mkStore (Example.ledger approved)
                                         (Example.entry approved))))))
  = total_balance (chartofaccount (Example.ledger approved)).
Proof.
  destruct (post_moves_total_balance Example.gen Example.the_accountant 6
              (Example.ledger approved) (Example.entry approved)
              (db (snd (post Example.gen Example.the_accountant 6
                          (mkStore (Example.ledger approved) (Example.entry approved)))))
              (self (snd (post Example.gen Example.the_accountant 6
                            (mkStore (Example.ledger approved) (Example.entry approved))))))
    as [_ Hbal].
  - vm_compute. reflexivity.
  - apply Hbal. vm_compute. reflexivity.
Defined.

(** ** Any sequence of calls *)

(** What one call leaves alone, and the one way it moves the accounts. *)
Lemma call_frame gen c s :
  journalentryline (db (snd (call gen c s))) = journalentryline (db s)
  /\ financialperiod (db (snd (call gen c s))) = financialperiod (db s)
  /\ pk (self (snd (call gen c s))) = pk (self s)
  /\ (chartofaccount (db (snd (call gen c s))) = chartofaccount (db s)
      \/ (status (self s) = approved
          /\ status (self (snd (call gen c s))) = posted
          /\ apply_lines (lines_all (db s) (self s)) (chartofaccount (db s))
             = (Return tt, chartofaccount (db (snd (call gen c s)))))).
Proof.
  destruct s as [d e]. destruct c as [|user now|user now|user]; cbn [call db self].
  - rewrite save_eq. cbn [snd db self with_entry journalentryline financialperiod
                          chartofaccount].
    rewrite numbered_pk. auto.
  - rewrite approve_eq. destruct (can_approve e user); cbn [snd db self]; [|auto].
    cbn [with_entry journalentryline financialperiod chartofaccount].
    rewrite numbered_pk. auto.
  - rewrite post_eq. destruct (can_post e user) eqn:Hcan; cbn [snd db self]; [|auto].
    apply can_post_true in Hcan as [Hst _].
    destruct (apply_lines (lines_all d e) (chartofaccount d)) as [[[]|x] accts'];
      cbn [snd db self]; [|auto].
    cbn [with_entry with_accounts journalentryline financialperiod chartofaccount].
    rewrite numbered_pk, numbered_status. split_and!; try done. by right.
  - rewrite reverse_eq. case_bool_decide; cbn [snd db self]; auto.
Qed.

Lemma lines_all_frame d e d' e' :
  journalentryline d' = journalentryline d -> pk e' = pk e ->
  lines_all d' e' = lines_all d e.
Proof. unfold lines_all. by intros -> ->. Qed.

Lemma call_keeps_posted gen c s :
  status (self s) = posted ->
  status (self (snd (call gen c s))) = posted
  /\ chartofaccount (db (snd (call gen c s))) = chartofaccount (db s).
Proof.
  intros Hst.
  destruct (call_status gen c s) as [H|[[H _]|[H _]]]; try congruence.
  destruct (call_frame gen c s) as (_ & _ & _ & [Hacc|[Happ _]]); [|congruence].
  split; congruence.
Qed.

(** X8: whatever sequence of [save], [approve], [post] and [reverse] calls
    is made on an entry, with whatever actors, the entry's lines are applied
    to the balances at most once: the accounts table is either the one the
    run started from, or the entry has become posted and every balance is
    the initial one plus the sum of the entry's signed line amounts on that
    account. *)
Theorem calls_post_at_most_once gen cs d e :
  chartofaccount (db (run_calls gen cs (mkStore d e))) = chartofaccount d
  \/ (status (self (run_calls gen cs (mkStore d e))) = posted
      /\ lines_resolve d e
      /\ forall k, chartofaccount (db (run_calls gen cs (mkStore d e))) !! k
                   = adjusted (account_delta k (lines_all d e)) <$> chartofaccount d !! k).
Proof.
  assert (Hinv :
    journalentryline (db (run_calls gen cs (mkStore d e))) = journalentryline d
    /\ pk (self (run_calls gen cs (mkStore d e))) = pk e
    /\ (chartofaccount (db (run_calls gen cs (mkStore d e))) = chartofaccount d
        \/ (status (self (run_calls gen cs (mkStore d e))) = posted
            /\ apply_lines (lines_all d e) (chartofaccount d)
               = (Return tt, chartofaccount (db (run_calls gen cs (mkStore d e))))))).
  { induction cs as [|c cs IH] using rev_ind; [by auto|].
    rewrite run_calls_snoc. set (s := run_calls gen cs (mkStore d e)) in *.
    destruct IH as (Hl & Hpk & Hacc).
    destruct (call_frame gen c s) as (Hl' & _ & Hpk' & Hacc').
    split; [congruence|]. split; [congruence|].
    destruct Hacc as [Hsame|[Hposted Happ]].
    - destruct Hacc' as [Hsame'|(_ & Hposted' & Happ')]; [left; congruence|].
      right. split; [done|].
      by rewrite (lines_all_frame d e (db s) (self s)), Hsame in Happ'.
    - destruct (call_keeps_posted gen c s Hposted) as [Hp Ha].
      right. split; [done|]. by rewrite Ha. }
  destruct Hinv as (_ & _ & [Hsame|[Hposted Happ]]); [by left|].
  right. split; [done|]. by apply apply_lines_returned in Happ.
Qed.

(** X9: an entry that is draft, posted, rejected or cancelled is frozen:
    no sequence of [save], [approve], [post] and [reverse] calls changes
    its status or any account balance.  In particular posted is final, and
    [reverse] on a posted entry restores nothing. *)
Theorem settled_entry_is_frozen gen cs d e :
  status e <> pending -> status e <> approved ->
  status (self (run_calls gen cs (mkStore d e))) = status e
  /\ chartofaccount (db (run_calls gen cs (mkStore d e))) = chartofaccount d.
Proof.
  intros Hnp Hna. induction cs as [|c cs IH] using rev_ind; [done|].
  rewrite run_calls_snoc. set (s := run_calls gen cs (mkStore d e)) in *.
  destruct IH as [Hst Hacc].
  destruct (call_status gen c s) as [H|[[H _]|[H _]]]; try congruence.
  destruct (call_frame gen c s) as (_ & _ & _ & [Hsame|[Happ _]]); [|congruence].
  split; congruence.
Qed.

Lemma settled_entry_is_frozen_witness :
  status (self (run_calls Example.gen
                  [CallReverse Example.the_accountant; CallPost Sample.the_admin 8;
                   CallApprove Sample.the_admin 9; CallSave]
                  (mkStore (Example.ledger posted) (Example.entry posted))))
    = posted
  /\ chartofaccount (db (run_calls Example.gen
                           [CallReverse Example.the_accountant;
                            CallPost Sample.the_admin 8;
                            CallApprove Sample.the_admin 9; CallSave]
                           (mkStore (Example.ledger posted) (Example.entry posted))))
     = chartofaccount (Example.ledger posted).
Proof.
  apply (settled_entry_is_frozen Example.gen
           [CallReverse Example.the_accountant; CallPost Sample.the_admin 8;
            CallApprove Sample.the_admin 9; CallSave]
           (Example.ledger posted) (Example.entry posted)); discriminate.
Defined.

(** X10: no sequence of calls touches the lines table or the periods
    table, and none changes the entry's key, date, fiscal year and period,
    type or header totals. *)
Theorem calls_leave_lines_and_amounts gen cs d e :
  journalentryline (db (run_calls gen cs (mkStore d e))) = journalentryline d
  /\ financialperiod (db (run_calls gen cs (mkStore d e))) = financialperiod d
  /\ pk (self (run_calls gen cs (mkStore d e))) = pk e
  /\ entry_date (self (run_calls gen cs (mkStore d e))) = entry_date e
  /\ fiscal_year (self (run_calls gen cs (mkStore d e))) = fiscal_year e
  /\ fiscal_period (self (run_calls gen cs (mkStore d e))) = fiscal_period e
  /\ entry_type (self (run_calls gen cs (mkStore d e))) = entry_type e
  /\ total_debits (self (run_calls gen cs (mkStore d e))) = total_debits e
  /\ total_credits (self (run_calls gen cs (mkStore d e))) = total_credits e.
Proof.
  induction cs as [|c cs IH] using rev_ind; [done|].
  rewrite run_calls_snoc. set (s := run_calls gen cs (mkStore d e)) in *.
  destruct IH as (H1 & H2 & H3 & H4 & H5 & H6 & H7 & H8 & H9).
  rewrite <- H1, <- H2, <- H3, <- H4, <- H5, <- H6, <- H7, <- H8, <- H9.
  clearbody s. clear. destruct s as [d e].
  destruct c as [|user now|user now|user]; cbn [call].
  - rewrite save_eq. cbn [snd db self]. unfold numbered. by case_bool_decide.
  - rewrite approve_eq. destruct (can_approve e user); [|done].
    cbn [snd db self]. unfold numbered. by case_bool_decide.
  - rewrite post_eq. destruct (can_post e user); [|done].
    destruct (apply_lines (lines_all d e) (chartofaccount d)) as [[[]|x] accts'];
      [|done].
    cbn [snd db self]. unfold numbered. by case_bool_decide.
  - rewrite reverse_eq. by case_bool_decide.
Qed.

(** ** Amounts and balances *)

(** X11: for a line that passes [clean], [get_amount] is the signed amount
    that [post] adds to the account, debit minus credit, and it is not
    zero.  (For a line with both amounts positive, which [clean] rejects,
    [get_amount] is the debit amount alone.) *)
Theorem get_amount_of_clean_line (l : JournalEntryLine.t) :
  (JournalEntryLine.clean l = Return tt ->
   JournalEntryLine.get_amount l
     = JournalEntryLine.debit_amount l - JournalEntryLine.credit_amount l
   /\ JournalEntryLine.get_amount l = line_delta l
   /\ JournalEntryLine.get_amount l <> 0)
  /\ (0 < JournalEntryLine.debit_amount l ->
      JournalEntryLine.get_amount l = JournalEntryLine.debit_amount l).
Proof.
  unfold JournalEntryLine.get_amount, line_delta. split.
  - rewrite line_clean_eq. repeat case_bool_decide; try discriminate. intros _.
    destruct (Z.gtb_spec (JournalEntryLine.debit_amount l) 0); split_and!; lia.
  - intros Hd. destruct (Z.gtb_spec (JournalEntryLine.debit_amount l) 0); lia.
Qed.

Lemma get_amount_of_clean_line_witness :
  JournalEntryLine.get_amount Example.revenue_line = -10000
  /\ JournalEntryLine.get_amount (JournalEntryLine.mk 7 1 1 10000 2500) = 10000.
Proof.
  split.
  - destruct (proj1 (get_amount_of_clean_line Example.revenue_line)) as (H & _ & _).
    + reflexivity.
    + exact H.
  - apply (proj2 (get_amount_of_clean_line (JournalEntryLine.mk 7 1 1 10000 2500))).
    reflexivity.
Defined.

(** X12: an entry passes [clean] exactly when its [get_balance] is zero and
    its fiscal period lies in 1..12. *)
Theorem entry_clean_iff_zero_balance (e : JournalEntry.t) :
  clean e = Return tt <-> get_balance e = 0 /\ 1 <= fiscal_period e <= 12.
Proof.
  rewrite clean_eq. unfold get_balance.
  repeat case_bool_decide; split; try discriminate; try done; lia.
Qed.

Lemma entry_clean_iff_zero_balance_witness :
  clean (Example.entry draft) = Return tt
  /\ get_balance Example.may_entry = 0.
Proof.
  split.
  - apply (proj2 (entry_clean_iff_zero_balance (Example.entry draft))).
    vm_compute. split; [reflexivity|]. split; discriminate.
  - apply (proj1 (entry_clean_iff_zero_balance Example.may_entry)). reflexivity.
Defined.

(** X13: an entry can pass [full_clean] only if its header totals are
    equal and its fiscal period is 12.  An entry with equal totals and a
    fiscal period from 1 to 11 passes [clean], but the second
    [MinValueValidator] declared on the field rejects it with "Ensure this
    value is greater than or equal to 12.", so [full_clean] raises. *)
Theorem entry_full_clean_only_if (e : JournalEntry.t) :
  (full_clean e = Return tt ->
   total_debits e = total_credits e /\ fiscal_period e = 12)
  /\ (total_debits e = total_credits e -> 1 <= fiscal_period e < 12 ->
      clean e = Return tt
      /\ run_validators fiscal_period_validators (fiscal_period e)
         = Raise (ValidationErrors ["Ensure this value is greater than or equal to 12."])
      /\ succeeded (full_clean e) = false).
Proof.
  split; [apply full_clean_iff|].
  intros Heq Hp.
  assert (Hc : clean e = Return tt) by (apply clean_fiscal_period_iff; [done|lia]).
  assert (Hf : run_validators fiscal_period_validators (fiscal_period e)
               = Raise (ValidationErrors
                          ["Ensure this value is greater than or equal to 12."])).
  { unfold fiscal_period_validators, run_validators, MinValueValidator.
    cbn [flat_map].
    destruct (Z.ltb_spec (fiscal_period e) 1); [lia|].
    destruct (Z.ltb_spec (fiscal_period e) 12); [|lia]. by vm_compute. }
  split; [exact Hc|]. split; [exact Hf|].
  unfold full_clean, clean_fields. by rewrite Hf, Hc.
Qed.

Lemma entry_full_clean_only_if_witness :
  fiscal_period (Example.lopsided pending) = 12
  /\ succeeded (full_clean Example.may_entry) = false.
Proof.
  split.
  - apply (proj1 (entry_full_clean_only_if (Example.lopsided pending))). reflexivity.
  - apply (proj2 (entry_full_clean_only_if Example.may_entry)).
    + reflexivity.
    + vm_compute. split; [discriminate|reflexivity].
Defined.

Lemma run_validators_app (vs ws : list (Z -> Outcome unit)) p :
  run_validators (vs ++ ws) p
  = raise_if_any (error_list (run_validators vs p) ++ error_list (run_validators ws p)).
Proof.
  unfold run_validators. rewrite flat_map_app.
  by destruct (flat_map (fun v => error_list (v p)) vs),
              (flat_map (fun v => error_list (v p)) ws).
Qed.

Lemma declared_period_validators_messages p :
  error_list (run_validators [MinValueValidator 1; MinValueValidator 12] p)
  = if p <? 1 then ["Ensure this value is greater than or equal to 1.";
                    "Ensure this value is greater than or equal to 12."]
    else if p <? 12 then ["Ensure this value is greater than or equal to 12."]
    else [].
Proof.
  unfold run_validators, MinValueValidator. cbn [flat_map].
  destruct (Z.ltb_spec p 1), (Z.ltb_spec p 12); try lia; by vm_compute.
Qed.

(** X14: on [TrialBalance.fiscal_period] and [FinancialPeriod.period_number]
    the second declared validator is a [MinValueValidator(12)] too.
    Whatever range validators the backend appends, a value the field's
    validators accept is at least 12; each value from 1 to 11 is rejected,
    the first error being "Ensure this value is greater than or equal to
    12."; and the declared validators set no upper bound of their own: a
    value of 12 or more is accepted whenever the backend's validators accept
    it. *)
Theorem period_validators_reject_below_twelve (backend : list (Z -> Outcome unit)) p :
  (run_validators (TrialBalance_fiscal_period_validators backend) p = Return tt ->
   12 <= p)
  /\ (run_validators (FinancialPeriod_period_number_validators backend) p = Return tt ->
      12 <= p)
  /\ (1 <= p < 12 ->
      exists more,
        run_validators (TrialBalance_fiscal_period_validators backend) p
          = Raise (ValidationErrors
                     ("Ensure this value is greater than or equal to 12." :: more))
        /\ run_validators (FinancialPeriod_period_number_validators backend) p
           = Raise (ValidationErrors
                      ("Ensure this value is greater than or equal to 12." :: more)))
  /\ (12 <= p -> run_validators backend p = Return tt ->
      run_validators (TrialBalance_fiscal_period_validators backend) p = Return tt
      /\ run_validators (FinancialPeriod_period_number_validators backend) p = Return tt).
Proof.
  unfold TrialBalance_fiscal_period_validators, FinancialPeriod_period_number_validators.
  rewrite run_validators_app, declared_period_validators_messages.
  destruct (Z.ltb_spec p 1), (Z.ltb_spec p 12); try lia; split_and!;
    try discriminate; try lia; try done.
  - intros _. by eexists.
  - intros _ ->. done.
Qed.

Lemma period_validators_reject_below_twelve_witness :
  (exists more,
     run_validators
       (TrialBalance_fiscal_period_validators [MaxValueValidator (2 ^ 63 - 1)]) 3
     = Raise (ValidationErrors
                ("Ensure this value is greater than or equal to 12." :: more)))
  /\ run_validators
       (FinancialPeriod_period_number_validators [MaxValueValidator (2 ^ 63 - 1)]) 99
     = Return tt
  /\ 12 <= 12.
Proof.
  split; [|split].
  - destruct (proj1 (proj2 (proj2 (period_validators_reject_below_twelve
                                     [MaxValueValidator (2 ^ 63 - 1)] 3))))
      as (more & H & _); [lia|]. by exists more.
  - apply (proj2 (proj2 (proj2 (period_validators_reject_below_twelve
                                  [MaxValueValidator (2 ^ 63 - 1)] 99)))).
    + lia.
    + reflexivity.
  - apply (proj1 (period_validators_reject_below_twelve [] 12)). reflexivity.
Defined.

(** With the range validator of a 64-bit backend appended, the value
    2^63 is rejected by that validator alone. *)
Lemma period_validators_backend_range :
  run_validators
    (FinancialPeriod_period_number_validators [MaxValueValidator (2 ^ 63 - 1)]) (2 ^ 63)
  = Raise (ValidationErrors
             ["Ensure this value is less than or equal to 9223372036854775807."]).
Proof. by vm_compute. Qed.

(** X15: an account passes [clean] exactly when its normal balance is that
    of its account type, and its opening balance is at most zero if it is
    debit-normal and at least zero if it is credit-normal. *)
Theorem account_clean_iff (a : ChartOfAccount.t) (ty : AccountType.t) :
  ChartOfAccount.clean a ty = Return tt <->
  ChartOfAccount.normal_balance a = AccountType.normal_balance ty
  /\ (ChartOfAccount.normal_balance a = debit -> ChartOfAccount.opening_balance a <= 0)
  /\ (ChartOfAccount.normal_balance a = credit -> 0 <= ChartOfAccount.opening_balance a).
Proof.
  unfold ChartOfAccount.clean. case_bool_decide as Hty; cbn [negb].
  2:{ split; [discriminate|]. tauto. }
  destruct (Z.ltb_spec (ChartOfAccount.opening_balance a) 0),
           (Z.gtb_spec (ChartOfAccount.opening_balance a) 0),
           (ChartOfAccount.normal_balance a);
    cbn; split; try discriminate; try done;
    try (intros (_ & Hd & Hc); specialize (Hd eq_refl) || specialize (Hc eq_refl); lia);
    try (intros _; split_and!; try done; intros; lia).
Qed.

Lemma account_clean_iff_witness :
  ChartOfAccount.clean Example.cash (AccountType.mk debit) = Return tt
  /\ ChartOfAccount.normal_balance Example.revenue = credit.
Proof.
  split.
  - apply (proj2 (account_clean_iff Example.cash (AccountType.mk debit))).
    split; [reflexivity|]. split; [intros _; vm_compute; discriminate|discriminate].
  - apply (proj1 (account_clean_iff Example.revenue (AccountType.mk credit))).
    reflexivity.
Defined.

(** X16: when [post] returns, the balance displayed for an account
    ([get_balance_display]) has moved by the sum of the entry's signed line
    amounts on it: upwards by that sum for a debit-normal account,
    downwards by it for a credit-normal one. *)
Theorem post_moves_displayed_balance gen user now d e d' e' k a :
  post gen user now (mkStore d e) = (Return tt, mkStore d' e') ->
  chartofaccount d !! k = Some a ->
  exists a',
    chartofaccount d' !! k = Some a' /\
    ChartOfAccount.normal_balance a' = ChartOfAccount.normal_balance a /\
    ChartOfAccount.opening_balance a' = ChartOfAccount.opening_balance a /\
    ChartOfAccount.get_balance_display a'
      = match ChartOfAccount.normal_balance a with
        | debit => ChartOfAccount.get_balance_display a + account_delta k (lines_all d e)
        | credit => ChartOfAccount.get_balance_display a - account_delta k (lines_all d e)
        end.
Proof.
  intros Hpost Hk. rewrite post_eq in Hpost.
  destruct (can_post e user); [|discriminate].
  destruct (apply_lines (lines_all d e) (chartofaccount d)) as [[[]|x] accts'] eqn:Happ;
    [|discriminate].
  cbn zeta in Hpost. injection Hpost as <- _.
  apply apply_lines_returned in Happ as [_ Hlook].
  exists (adjusted (account_delta k (lines_all d e)) a).
  cbn [with_entry with_accounts chartofaccount]. rewrite Hlook, Hk.
  split; [done|]. split; [done|]. split; [done|].
  unfold ChartOfAccount.get_balance_display.
  change (ChartOfAccount.normal_balance (adjusted (account_delta k (lines_all d e)) a))
    with (ChartOfAccount.normal_balance a).
  rewrite adjusted_current_balance.
  destruct (ChartOfAccount.normal_balance a).
  - by rewrite bool_decide_eq_true_2.
  - rewrite bool_decide_eq_false_2 by discriminate. lia.
Qed.

Lemma post_moves_displayed_balance_witness :
  exists a',
    chartofaccount (db (snd (post Example.gen Example.the_accountant 6
                               (mkStore (Example.ledger approved)
                                        (Example.entry approved))))) !! 2 = Some a' /\
    ChartOfAccount.normal_balance a' = credit /\
    ChartOfAccount.opening_balance a' = 0 /\
    ChartOfAccount.get_balance_display a'
      = 20000 - account_delta 2 (lines_all (Example.ledger approved)
                                           (Example.entry approved)).
Proof.
  apply (post_moves_displayed_balance Example.gen Example.the_accountant 6
           (Example.ledger approved) (Example.entry approved)
           (db (snd (post Example.gen Example.the_accountant 6
                       (mkStore (Example.ledger approved) (Example.entry approved)))))
           (self (snd (post Example.gen Example.the_accountant 6
                         (mkStore (Example.ledger approved) (Example.entry approved)))))
           2 Example.revenue).
  - vm_compute. reflexivity.
  - vm_compute. reflexivity.
Defined.

(** X17: every account is either a balance sheet account or an income
    statement account, and never both. *)
Theorem balance_sheet_or_income_statement (a : ChartOfAccount.t)
    (category : AccountCategory.t) :
  ChartOfAccount.is_income_statement_account a category
    = negb (ChartOfAccount.is_balance_sheet_account a category).
Proof.
  unfold ChartOfAccount.is_income_statement_account,
    ChartOfAccount.is_balance_sheet_account.
  by destruct (AccountCategory.category_type category).
Qed.



(** ** Roles and permissions *)

(** X19: every role has the permission "view"; an admin has every
    permission; and whatever a user who is not admin is granted is one of
    create, edit, view, delete, audit, approve. *)
Theorem permissions_by_role (u : User.t) (permission : string) :
  User.has_ipsas_permission u "view" = true
  /\ (User.role u = admin -> User.has_ipsas_permission u permission = true)
  /\ (User.role u <> admin -> User.has_ipsas_permission u permission = true ->
      permission ∈ ["create"; "edit"; "view"; "delete"; "audit"; "approve"]).
Proof.
  unfold User.has_ipsas_permission. destruct u as [k r]. cbn [User.role].
  split_and!.
  - by destruct r.
  - by intros ->.
  - intros Hr Hp. destruct r; [done|..]; cbn in Hp;
      apply bool_decide_eq_true in Hp;
      rewrite ?elem_of_cons, ?elem_of_nil in *; tauto.
Qed.

Lemma permissions_by_role_witness :
  User.has_ipsas_permission Sample.the_admin "close_period" = true
  /\ "audit" ∈ ["create"; "edit"; "view"; "delete"; "audit"; "approve"].
Proof.
  split.
  - apply (proj1 (proj2 (permissions_by_role Sample.the_admin "close_period"))).
    reflexivity.
  - apply (proj2 (proj2 (permissions_by_role Sample.the_auditor "audit"))).
    + discriminate.
    + reflexivity.
Defined.

(** X20: the permission table and the approval check agree: on a pending
    entry, [can_approve] holds for exactly the users that
    [has_ipsas_permission] grants "approve", the managers and the admins. *)
Theorem can_approve_agrees_with_permission (e : JournalEntry.t) (u : User.t) :
  status e = pending ->
  can_approve e u = User.has_ipsas_permission u "approve"
  /\ (can_approve e u = true <-> User.role u = manager \/ User.role u = admin).
Proof.
  intros Hst. split.
  - unfold can_approve, User.has_ipsas_permission.
    rewrite Hst. destruct u as [k r]. cbn [User.role].
    by destruct r; vm_compute.
  - rewrite can_approve_true. tauto.
Qed.

Lemma can_approve_agrees_with_permission_witness :
  can_approve (Example.entry pending) Example.the_manager
    = User.has_ipsas_permission Example.the_manager "approve"
  /\ can_approve (Example.entry pending) Example.the_accountant
     = User.has_ipsas_permission Example.the_accountant "approve".
Proof.
  split.
  - destruct (can_approve_agrees_with_permission (Example.entry pending)
                Example.the_manager) as [H _]; [reflexivity|exact H].
  - destruct (can_approve_agrees_with_permission (Example.entry pending)
                Example.the_accountant) as [H _]; [reflexivity|exact H].
Defined.

(** ** Statement calculations *)

(** X21: after [calculate_net_cash_flows], the value returned is the net
    change in cash, which is the three inflows minus the three outflows,
    and cash at end is cash at beginning plus that change; the inflows,
    outflows and opening cash are not modified, and calling the method
    again changes nothing. *)
Theorem net_cash_flows_reconcile (s : StatementOfCashFlows.t) :
  let r := fst (StatementOfCashFlows.calculate_net_cash_flows s) in
  let s' := snd (StatementOfCashFlows.calculate_net_cash_flows s) in
  r = StatementOfCashFlows.net_change_in_cash s'
  /\ r = (StatementOfCashFlows.cash_from_operations s
          + StatementOfCashFlows.cash_from_investing s
          + StatementOfCashFlows.cash_from_financing s)
         - (StatementOfCashFlows.cash_used_in_operations s
            + StatementOfCashFlows.cash_used_in_investing s
            + StatementOfCashFlows.cash_used_in_financing s)
  /\ StatementOfCashFlows.cash_at_end s' = StatementOfCashFlows.cash_at_beginning s + r
  /\ StatementOfCashFlows.cash_at_beginning s' = StatementOfCashFlows.cash_at_beginning s
  /\ StatementOfCashFlows.calculate_net_cash_flows s' = (r, s').
Proof.
  destruct s. unfold StatementOfCashFlows.calculate_net_cash_flows. cbn.
  split_and!; try reflexivity; lia.
Qed.

(** X22: after [calculate_carrying_amounts], the carrying amount at the end
    (the value returned) is the carrying amount at the beginning rolled
    forward: plus additions, revaluations and transfers, minus disposals and
    the year's depreciation, plus the depreciation released on disposals,
    minus the depreciation added by revaluations; and calling the method
    again changes nothing. *)
Theorem carrying_amounts_roll_forward (s : PropertyPlantEquipment.t) :
  let r := fst (PropertyPlantEquipment.calculate_carrying_amounts s) in
  let s' := snd (PropertyPlantEquipment.calculate_carrying_amounts s) in
  r = PropertyPlantEquipment.carrying_amount_end s'
  /\ PropertyPlantEquipment.carrying_amount_beginning s'
     = PropertyPlantEquipment.cost_at_beginning s
       - PropertyPlantEquipment.accumulated_depreciation_beginning s
  /\ PropertyPlantEquipment.carrying_amount_end s'
     = PropertyPlantEquipment.carrying_amount_beginning s'
       + PropertyPlantEquipment.additions s - PropertyPlantEquipment.disposals s
       + PropertyPlantEquipment.revaluations s + PropertyPlantEquipment.transfers s
       - PropertyPlantEquipment.depreciation_expense s
       + PropertyPlantEquipment.accumulated_depreciation_disposals s
       - PropertyPlantEquipment.accumulated_depreciation_revaluations s
  /\ PropertyPlantEquipment.calculate_carrying_amounts s' = (r, s').
Proof.
  destruct s. unfold PropertyPlantEquipment.calculate_carrying_amounts. cbn.
  split_and!; try reflexivity; lia.
Qed.

(** X23: [calculate_net_surplus_deficit] and [calculate_variances] can be
    called in either order with the same resulting object; afterwards the
    revenue variance minus the expense variance is the net surplus minus the
    budgeted one (budgeted revenue minus budgeted expenses); the stored
    [budgeted_surplus_deficit] is neither read nor written. *)
Theorem performance_calculations_commute (s : StatementOfFinancialPerformance.t) :
  let s1 := snd (StatementOfFinancialPerformance.calculate_variances
                   (snd (StatementOfFinancialPerformance.calculate_net_surplus_deficit s))) in
  let s2 := snd (StatementOfFinancialPerformance.calculate_net_surplus_deficit
                   (snd (StatementOfFinancialPerformance.calculate_variances s))) in
  s1 = s2
  /\ StatementOfFinancialPerformance.revenue_variance s1
     - StatementOfFinancialPerformance.expense_variance s1
     = StatementOfFinancialPerformance.net_surplus_deficit s1
       - (StatementOfFinancialPerformance.budgeted_revenue s
          - StatementOfFinancialPerformance.budgeted_expenses s)
  /\ StatementOfFinancialPerformance.budgeted_surplus_deficit s1
     = StatementOfFinancialPerformance.budgeted_surplus_deficit s.
Proof.
  destruct s. cbn. split_and!; try reflexivity; lia.
Qed.

(** ** Statement codes *)

Lemma generated_code_prefix (s : FinancialStatement.t) (p : FinancialPeriod.t) :
  exists rest,
    FinancialStatement._generate_statement_code s p
    = String.substring 0 3 (upper (FinancialStatement.value
                                     (FinancialStatement.statement_type s)))
      +:+ rest
    /\ String.length (String.substring 0 3
                        (upper (FinancialStatement.value
                                  (FinancialStatement.statement_type s)))) = 3%nat.
Proof.
  eexists. split; [reflexivity|]. by destruct (FinancialStatement.statement_type s).
Qed.

(** X24: a statement of financial position ([sfp]) and a statement of
    financial performance ([sfp_performance]) of the same period and
    version are given the same generated code, both starting with "SFP",
    although the column [statement_code] is declared unique. *)
Theorem statement_code_collision (s1 s2 : FinancialStatement.t) (p : FinancialPeriod.t) :
  FinancialStatement.statement_type s1 = FinancialStatement.sfp ->
  FinancialStatement.statement_type s2 = FinancialStatement.sfp_performance ->
  FinancialStatement.version s1 = FinancialStatement.version s2 ->
  FinancialStatement._generate_statement_code s1 p
    = FinancialStatement._generate_statement_code s2 p
  /\ FinancialStatement._generate_statement_code s1 p
     = "SFP" +:+ pretty (FinancialPeriod.fiscal_year p)
       +:+ format_02d (FinancialPeriod.period_number p)
       +:+ format_02d (FinancialStatement.version s1).
Proof.
  intros H1 H2 Hv. unfold FinancialStatement._generate_statement_code.
  by rewrite H1, H2, Hv.
Qed.

Lemma statement_code_collision_witness :
  FinancialStatement._generate_statement_code
    (FinancialStatement.mk FinancialStatement.sfp "Position" EmptyString 1) Sample.january
  = FinancialStatement._generate_statement_code
      (FinancialStatement.mk FinancialStatement.sfp_performance "Performance"
                             EmptyString 1) Sample.january
  /\ FinancialStatement._generate_statement_code
       (FinancialStatement.mk FinancialStatement.sfp "Position" EmptyString 1)
       Sample.january
     = "SFP20240101".
Proof.
  destruct (statement_code_collision
              (FinancialStatement.mk FinancialStatement.sfp "Position" EmptyString 1)
              (FinancialStatement.mk FinancialStatement.sfp_performance "Performance"
                                     EmptyString 1)
              Sample.january) as [Heq Hcode]; try reflexivity.
  split; [exact Heq|]. rewrite Hcode. vm_compute. reflexivity.
Defined.

(** X25: apart from that pair, the generated code tells the statement
    type: two statements whose generated codes are equal have the same
    type, or one is [sfp] and the other [sfp_performance]. *)
Theorem statement_code_tells_type (s1 s2 : FinancialStatement.t)
    (p1 p2 : FinancialPeriod.t) :
  FinancialStatement._generate_statement_code s1 p1
    = FinancialStatement._generate_statement_code s2 p2 ->
  FinancialStatement.statement_type s1 = FinancialStatement.statement_type s2
  \/ (FinancialStatement.statement_type s1 = FinancialStatement.sfp
      /\ FinancialStatement.statement_type s2 = FinancialStatement.sfp_performance)
  \/ (FinancialStatement.statement_type s1 = FinancialStatement.sfp_performance
      /\ FinancialStatement.statement_type s2 = FinancialStatement.sfp).
Proof.
  unfold FinancialStatement._generate_statement_code.
  destruct (FinancialStatement.statement_type s1),
           (FinancialStatement.statement_type s2);
    cbn [FinancialStatement.value upper String.substring ascii_upper];
    intros Heq; try (by left); try (right; left; done); try (right; right; done);
    exfalso; vm_compute in Heq; discriminate.
Qed.

Lemma statement_code_tells_type_witness :
  FinancialStatement.scf = FinancialStatement.scf
  \/ (FinancialStatement.scf = FinancialStatement.sfp
      /\ FinancialStatement.scf = FinancialStatement.sfp_performance)
  \/ (FinancialStatement.scf = FinancialStatement.sfp_performance
      /\ FinancialStatement.scf = FinancialStatement.sfp).
Proof.
  apply (statement_code_tells_type
           (FinancialStatement.mk FinancialStatement.scf "Cash flows" EmptyString 2)
           (FinancialStatement.mk FinancialStatement.scf "Cash flows, restated"
                                  "SCF-OLD" 2)
           Sample.january Sample.january).
  reflexivity.
Defined.

(** X26: [save] of a statement never replaces a code that is given, fills
    in the generated code when none is, never leaves the code empty, and
    saving twice is the same as saving once. *)
Theorem statement_save_code (s : FinancialStatement.t) (p : FinancialPeriod.t) :
  (FinancialStatement.statement_code s <> EmptyString ->
   FinancialStatement.save s p = s)
  /\ (FinancialStatement.statement_code s = EmptyString ->
      FinancialStatement.statement_code (FinancialStatement.save s p)
      = FinancialStatement._generate_statement_code s p)
  /\ FinancialStatement.statement_code (FinancialStatement.save s p) <> EmptyString
  /\ FinancialStatement.save (FinancialStatement.save s p) p = FinancialStatement.save s p.
Proof.
  assert (Hne : FinancialStatement._generate_statement_code s p <> EmptyString).
  { destruct (generated_code_prefix s p) as (rest & -> & Hlen).
    destruct (String.substring 0 3 _); [discriminate|]. discriminate. }
  unfold FinancialStatement.save. split_and!.
  - intros H. by rewrite bool_decide_eq_false_2.
  - intros H. by rewrite bool_decide_eq_true_2.
  - case_bool_decide; [exact Hne|done].
  - destruct (decide (FinancialStatement.statement_code s = EmptyString)) as [He|Hn].
    + rewrite !(bool_decide_eq_true_2 _ He). cbn [FinancialStatement.statement_code].
      by rewrite (bool_decide_eq_false_2 _ Hne).
    + by rewrite !(bool_decide_eq_false_2 _ Hn).
Qed.

Lemma statement_save_code_witness :
  FinancialStatement.save
    (FinancialStatement.mk FinancialStatement.scf "Cash flows" "SCF-OLD" 2) Sample.january
  = FinancialStatement.mk FinancialStatement.scf "Cash flows" "SCF-OLD" 2
  /\ FinancialStatement.statement_code
       (FinancialStatement.save
          (FinancialStatement.mk FinancialStatement.ppes "Plant" EmptyString 3)
          Sample.january)
     = FinancialStatement._generate_statement_code
         (FinancialStatement.mk FinancialStatement.ppes "Plant" EmptyString 3)
         Sample.january.
Proof.
  split.
  - apply (proj1 (statement_save_code
                    (FinancialStatement.mk FinancialStatement.scf "Cash flows" "SCF-OLD" 2)
                    Sample.january)).
    discriminate.
  - apply (proj1 (proj2 (statement_save_code
                    (FinancialStatement.mk FinancialStatement.ppes "Plant" EmptyString 3)
                    Sample.january))).
    reflexivity.
Defined.

(** ** One user in both roles *)

(** X27: the only users who can both approve and post are the admins: a
    manager can approve but not post, an accountant can post but not
    approve.  An admin can take a pending entry to posted alone: approval
    followed by posting by the same admin returns, and the entry records
    that user as approver and as poster. *)
Theorem approve_and_post_by_one_user gen u t1 t2 d e :
  (forall e1 e2, can_approve e1 u = true -> can_post e2 u = true -> User.role u = admin)
  /\ (User.role u = admin -> status e = pending -> lines_resolve d e ->
      exists d' e',
        (approve gen u t1 ;; post gen u t2) (mkStore d e) = (Return tt, mkStore d' e') /\
        status e' = posted /\
        approved_by e' = Some (User.pk u) /\
        posted_by e' = Some (User.pk u)).
Proof.
  split.
  - intros e1 e2 [_ Ha]%can_approve_true [_ Hp]%can_post_true.
    destruct Ha as [Ha|Ha], Hp as [Hp|Hp]; congruence.
  - intros Hadmin Hst Hres.
    assert (Hcan : can_approve e u = true) by (apply can_approve_true; tauto).
    rewrite approve_then_post_eq by done.
    set (e1 := numbered gen d (stamped_approved u t1 e)).
    destruct (post_returns gen u t2 (with_entry e1 d) e1) as (accts' & Hpost & _).
    + apply can_post_true. unfold e1. rewrite numbered_status. tauto.
    + unfold lines_resolve in *.
      rewrite (lines_all_frame d e (with_entry e1 d) e1); [done|done|].
      unfold e1. by rewrite numbered_pk.
    + eexists _, _. split; [exact Hpost|].
      unfold e1, numbered. repeat case_bool_decide; by cbn.
Qed.

Lemma approve_and_post_by_one_user_witness :
  User.role Sample.the_admin = admin
  /\ exists d' e',
       (approve Example.gen Sample.the_admin 5 ;; post Example.gen Sample.the_admin 6)
         (mkStore (Example.ledger pending) (Example.entry pending))
         = (Return tt, mkStore d' e') /\
       status e' = posted /\
       approved_by e' = Some 13 /\
       posted_by e' = Some 13.
Proof.
  destruct (approve_and_post_by_one_user Example.gen Sample.the_admin 5 6
              (Example.ledger pending) (Example.entry pending)) as [Honly Hboth].
  split.
  - apply (Honly (Example.entry pending) (Example.entry approved)); reflexivity.
  - apply Hboth.
    + reflexivity.
    + reflexivity.
    + apply (bool_decide_unpack _). vm_compute. reflexivity.
Defined.
